(** * anlpy2: event flags and the analysis loop

    A shallow embedding of [anlpy2/analysis_status.py],
    [anlpy2/event_flags.py] and of the loop of
    [anlpy2/analysis_framework.py], followed by the properties of the
    flag registry and of the loop controller.

    Conventions.
    - A Python [int] is a [Z]; a Python [float] is a binary64 [float]
      with the primitive IEEE operations.
    - A Python exception is the [Raise] case of [Py.result].
    - The class attribute [EventFlags.__dict_of_flags] is a [dict] in
      insertion order: an association list whose entries are appended.
    - [print] appends a line to the standard output of the world; the
      lines are kept structured (the numbers that are printed and not
      their rendering). *)

From Stdlib Require Import ZArith List String Ascii Bool Lia FinFun.
From Stdlib Require Import Floats.PrimFloat.
From Stdlib Require Import Numbers.Cyclic.Int63.Uint63.
From Stdlib Require Import DecimalString DecimalZ.
From ExtLib Require Import Structures.Monad.
Import ListNotations.
Import MonadNotation.

Local Open Scope string_scope.
Local Open Scope Z_scope.
Local Open Scope monad_scope.

(* ===================================================================== *)
(** ** Python primitives *)
(* ===================================================================== *)

Module Py.

  (** The exceptions the modelled code can raise. *)
Inductive exn : Type :=
| ZeroDivisionError
| NameError (name : string)
| KeyError (key : string).

  (** The outcome of a Python call: a value or a raised exception.
      [Unfinished] is not an outcome of the program: it is what a loop of
      the model answers when its bound on the number of rounds is used
      up. *)
Inductive result (A : Type) : Type :=
| Ok (a : A)
| Raise (e : exn)
| Unfinished.

Arguments Ok {A} a.
Arguments Raise {A} e.
Arguments Unfinished {A}.

Definition result_bind {A B : Type} (c : result A) (k : A -> result B) : result B :=
  match c with
  | Ok a => k a
  | Raise e => Raise e
  | Unfinished => Unfinished
  end.

#[export] Instance Monad_result : Monad result :=
  {| ret := @Ok; bind := @result_bind |}.

  (** What [print] writes.  A line keeps the values that are formatted. *)
Inductive line : Type :=
| progress_line (current_entry nentries : Z) (percent rest_time : float)
| blank_line
| report_header (ndef : Z)
| report_line (accum : float) (key : string).

  (** ['{:d}'.format(n)]: the decimal digits of an int. *)
Definition format_d (n : Z) : string :=
  NilEmpty.string_of_int (Z.to_int n).

  (** [float(n)] of an int, exact below [2^53] and defined here for
      [|n| < 2^63]. *)
Definition float_of_int (n : Z) : float :=
  if n <? 0 then PrimFloat.opp (PrimFloat.of_uint63 (Uint63.of_Z (- n)))
  else PrimFloat.of_uint63 (Uint63.of_Z n).

  (** [a % b] on ints: the sign follows the divisor, as [Z.modulo]. *)
Definition int_mod (a b : Z) : result Z :=
  if b =? 0 then Raise ZeroDivisionError else Ok (a mod b).

  (** [a / b] with a float divisor: Python raises on a zero divisor where
      IEEE would return an infinity or a NaN. *)
Definition float_truediv (a b : float) : result float :=
  if PrimFloat.eqb b 0%float then Raise ZeroDivisionError
  else Ok (PrimFloat.div a b).

  (** [a / b] on two ints. *)
Definition int_truediv (a b : Z) : result float :=
  if b =? 0 then Raise ZeroDivisionError
  else Ok (PrimFloat.div (float_of_int a) (float_of_int b)).

  (** [timedelta.total_seconds()] of a difference given in microseconds. *)
Definition total_seconds (microseconds : Z) : float :=
  PrimFloat.div (float_of_int microseconds) 1000000%float.

  (** Name mangling of a private name inside a class body: [__x] becomes
      [_Class__x]; names that end in two underscores are left alone. *)
Definition is_private (name : string) : bool :=
  String.prefix "__" name
  && negb (String.eqb (String.substring (String.length name - 2) 2 name) "__").

Definition mangle (class name : string) : string :=
  if is_private name then "_" ++ class ++ name else name.

End Py.

Import Py.

(* ===================================================================== *)
(** ** analysis_status.py *)
(* ===================================================================== *)

Module AnalysisStatus.

Inductive t : Type :=
| OKEvent
| SkipEvent
| QuitLoop
| OKFunc
| ErrFunc.

  (** [enum.auto()] numbers the members from 1. *)
Definition value (s : t) : Z :=
  match s with
  | OKEvent => 1
  | SkipEvent => 2
  | QuitLoop => 3
  | OKFunc => 4
  | ErrFunc => 5
  end.

  (** [==] of an [IntEnum] compares the values. *)
Definition eqb (a b : t) : bool := value a =? value b.

End AnalysisStatus.

Module stt := AnalysisStatus.

(* ===================================================================== *)
(** ** event_flags.py *)
(* ===================================================================== *)

Module EventFlags.

  (** An instance of the class: one flag. *)
Record obj : Type := mk_obj {
  __key : string;
  __count : float;
  __isset : bool;
  __accum : float
}.

  (** [__dict_of_flags]: name to flag object, in insertion order. *)
Definition dict : Type := list (string * obj).

  (** The values bound to names, for the lookups of names in [status]. *)
Inductive pyvalue : Type :=
| a_status (s : stt.t)
| an_int (n : Z)
| the_dict (d : dict)
| a_class
| a_builtin.

  (** The data attributes the class body binds; the private ones are
      mangled. *)
Definition class_attributes (d : dict) : list (string * pyvalue) :=
  [ (mangle "EventFlags" "__dict_of_flags", the_dict d);
    (mangle "EventFlags" "__verbose_level", an_int 1);
    (mangle "EventFlags" "__status", a_status stt.OKEvent) ].

  (** The names bound at the top level of the module: the ones every
      module has, the imported [stt] and the class. *)
Definition module_globals : list (string * pyvalue) :=
  [ ("__name__", a_builtin); ("__doc__", a_builtin);
    ("__package__", a_builtin); ("__loader__", a_builtin);
    ("__spec__", a_builtin); ("__file__", a_builtin);
    ("__cached__", a_builtin); ("__builtins__", a_builtin);
    ("stt", a_class); ("EventFlags", a_class) ].

  (** The functions and constants of the [builtins] module (its exception
      classes, whose names start with a capital letter, are left out). *)
Definition builtins : list string :=
  [ "abs"; "aiter"; "all"; "anext"; "any"; "ascii"; "bin"; "bool";
    "breakpoint"; "bytearray"; "bytes"; "callable"; "chr"; "classmethod";
    "compile"; "complex"; "delattr"; "dict"; "dir"; "divmod"; "enumerate";
    "eval"; "exec"; "filter"; "float"; "format"; "frozenset"; "getattr";
    "globals"; "hasattr"; "hash"; "help"; "hex"; "id"; "input"; "int";
    "isinstance"; "issubclass"; "iter"; "len"; "list"; "locals"; "map";
    "max"; "memoryview"; "min"; "next"; "object"; "oct"; "open"; "ord";
    "pow"; "print"; "property"; "range"; "repr"; "reversed"; "round";
    "set"; "setattr"; "slice"; "sorted"; "staticmethod"; "str"; "sum";
    "super"; "tuple"; "type"; "vars"; "zip"; "__import__";
    "__build_class__"; "__debug__"; "__doc__"; "__name__"; "__package__";
    "__loader__"; "__spec__";
    "True"; "False"; "None"; "Ellipsis"; "NotImplemented" ].

Fixpoint assoc {V : Type} (name : string) (env : list (string * V)) : option V :=
  match env with
  | [] => None
  | (n, v) :: rest => if String.eqb n name then Some v else assoc name rest
  end.

  (** Reading a bare name in a method body: the locals of the call, then
      the module globals, then the builtins.  The attributes of the
      enclosing class are not a scope of its methods. *)
Definition load_name (locals : list (string * pyvalue)) (name : string)
  : result pyvalue :=
  match assoc name locals with
  | Some v => Ok v
  | None =>
      match assoc name module_globals with
      | Some v => Ok v
      | None =>
          if existsb (String.eqb name) builtins then Ok a_builtin
          else Raise (NameError name)
      end
  end.

  (** [EventFlags.x]: an attribute of the class. *)
Definition load_class_attribute (d : dict) (name : string) : option pyvalue :=
  assoc name (class_attributes d).

  (** *** Dictionary primitives *)

  (** The object a name is bound to, if any: the view of the dictionary
      in which the operations are specified. *)
Definition lookup (d : dict) (key : string) : option obj := assoc key d.

  (** [key in d] *)
Fixpoint contains (d : dict) (key : string) : bool :=
  match d with
  | [] => false
  | (k, _) :: rest => if String.eqb k key then true else contains rest key
  end.

  (** [d[key]] *)
Fixpoint getitem (d : dict) (key : string) : result obj :=
  match d with
  | [] => Raise (KeyError key)
  | (k, f) :: rest => if String.eqb k key then Ok f else getitem rest key
  end.

  (** [d[key] = f]: a present key keeps its place, a new key goes last. *)
Fixpoint setitem (d : dict) (key : string) (f : obj) : dict :=
  match d with
  | [] => [(key, f)]
  | (k, g) :: rest =>
      if String.eqb k key then (k, f) :: rest else (k, g) :: setitem rest key f
  end.

  (** [d[key].attr = ...]: the object held under [key] is updated in
      place. *)
Fixpoint setattr (d : dict) (key : string) (upd : obj -> obj) : result dict :=
  match d with
  | [] => Raise (KeyError key)
  | (k, f) :: rest =>
      if String.eqb k key then Ok ((k, upd f) :: rest)
      else rest' <- setattr rest key upd ;; ret ((k, f) :: rest')
  end.

Definition with_count (val : float) (f : obj) : obj :=
  mk_obj (__key f) val (__isset f) (__accum f).

Definition with_isset (b : bool) (f : obj) : obj :=
  mk_obj (__key f) (__count f) b (__accum f).

Definition with_accum (val : float) (f : obj) : obj :=
  mk_obj (__key f) (__count f) (__isset f) val.

  (** *** The class methods *)

Definition ndef (d : dict) : Z := Z.of_nat (List.length d).

  (** [status]: the body is [return __status], a bare name. *)
Definition status (d : dict) : result pyvalue :=
  load_name [("cls", a_class)] (mangle "EventFlags" "__status").

Definition has (d : dict) (key : string) : bool :=
  if contains d key then true else false.

  (** [__newkey]: the [while True] loop, run for at most [fuel] rounds.
      [__newkey] gives it one round more than there are flags, which is
      always enough (see [newkey_smallest_unused]). *)
Fixpoint __newkey_loop (fuel : nat) (d : dict) (key : string) (iter : Z)
  : result string :=
  match fuel with
  | O => Unfinished
  | S fuel' =>
      let candidate := key ++ "-" ++ format_d iter in
      if Bool.eqb (has d candidate) false then Ok candidate
      else __newkey_loop fuel' d key (iter + 1)
  end.

Definition __newkey (d : dict) (key : string) : result string :=
  __newkey_loop (S (List.length d)) d key 2.

  (** [EventFlags(key)]: the new object and the registry the constructor
      leaves, which is the one it found: the line that stored the new
      object is commented out. *)
Definition __init__ (d : dict) (key : string) : result (obj * dict) :=
  k <- (if has d key then __newkey d key else ret key) ;;
  ret (mk_obj k 0%float false 0%float, d).

  (** [define] returns nothing; the result is the registry it leaves. *)
Definition define (d : dict) (key : string) : result dict :=
  if Bool.eqb (has d key) true then ret d
  else
    r <- __init__ d key ;;
    let temp := fst r in
    ret (setitem (snd r) (__key temp) temp).

  (** The flag a [define] of a new name stores. *)
Definition fresh (key : string) : obj := mk_obj key 0%float false 0%float.

  (** [set] and [add] return [False] for an unknown name and fall off
      the end ([None]) otherwise: [Some false] and [None] here. *)
Definition set (d : dict) (key : string) (val : float)
  : result (option bool * dict) :=
  if Bool.eqb (has d key) false then ret (Some false, d)
  else
    d1 <- setattr d key (with_count val) ;;
    d2 <- setattr d1 key (with_isset true) ;;
    ret (None, d2).

Definition add (d : dict) (key : string) (val : float)
  : result (option bool * dict) :=
  if Bool.eqb (has d key) false then ret (Some false, d)
  else
    d1 <- setattr d key (fun f => with_count (PrimFloat.add (__count f) val) f) ;;
    d2 <- setattr d1 key (with_isset true) ;;
    ret (None, d2).

Definition is_set (d : dict) (key : string) : result bool :=
  if Bool.eqb (has d key) false then ret false
  else f <- getitem d key ;; ret (__isset f).

  (** [any(... for key in list_of_keys)] stops at the first true value,
      [all] at the first false one. *)
Fixpoint any (d : dict) (list_of_keys : list string) : result bool :=
  match list_of_keys with
  | [] => ret false
  | key :: rest =>
      b <- is_set d key ;; if (b : bool) then ret true else any d rest
  end.

Fixpoint all (d : dict) (list_of_keys : list string) : result bool :=
  match list_of_keys with
  | [] => ret true
  | key :: rest =>
      b <- is_set d key ;; if (b : bool) then all d rest else ret false
  end.

  (** [get] and [integral] return [None] for an unknown name. *)
Definition get (d : dict) (key : string) : result (option float) :=
  if Bool.eqb (has d key) false then ret None
  else f <- getitem d key ;; ret (Some (__count f)).

Definition integral (d : dict) (key : string) : result (option float) :=
  if Bool.eqb (has d key) false then ret None
  else f <- getitem d key ;; ret (Some (__accum f)).

  (** [when]: a flag name is a string or [None].  [None] is never a key
      of the registry, so [has(None)] is false and [set(None)] returns
      [False] without a change. *)
Definition has_opt (d : dict) (key : option string) : bool :=
  match key with
  | Some k => has d k
  | None => false
  end.

Definition set_opt (d : dict) (key : option string) (val : float)
  : result (option bool * dict) :=
  match key with
  | Some k => set d k val
  | None => ret (Some false, d)
  end.

Definition define_missing (d : dict) (flag : option string) : result dict :=
  match flag with
  | Some k => if Bool.eqb (has d k) false then define d k else ret d
  | None => ret d
  end.

Definition when (d : dict) (condition : bool)
    (set_flag otherwise_set_flag : option string) : result (bool * dict) :=
  d1 <- define_missing d set_flag ;;
  d2 <- define_missing d1 otherwise_set_flag ;;
  r <- (if Bool.eqb condition true then set_opt d2 set_flag 1%float
        else set_opt d2 otherwise_set_flag 1%float) ;;
  ret (condition, snd r).

  (** The loops over [__dict_of_flags.values()] update every object. *)
Definition accumulate (d : dict) : dict :=
  List.map (fun kf : string * obj =>
              let (k, flag) := kf in
              (k, mk_obj (__key flag) 0%float false
                         (PrimFloat.add (__accum flag) (__count flag)))) d.

Definition clear (d : dict) : dict :=
  List.map (fun kf : string * obj =>
              let (k, flag) := kf in
              (k, mk_obj (__key flag) 0%float false (__accum flag))) d.

Definition reset (d : dict) : dict :=
  List.map (fun kf : string * obj =>
              let (k, flag) := kf in
              (k, mk_obj (__key flag) 0%float false 0%float)) d.

  (** Every flag is in its state of the beginning of a record. *)
Definition cleared (d : dict) : Prop :=
  Forall (fun kf : string * obj =>
            __count (snd kf) = 0%float /\ __isset (snd kf) = false) d.

  (** [output]: the header with the number of flags, a line for each
      flag in the order of the dictionary, and an empty line. *)
Definition output (d : dict) : list line :=
  report_header (ndef d)
    :: List.map (fun kf : string * obj =>
                   report_line (__accum (snd kf)) (__key (snd kf))) d
    ++ [blank_line].

  (** *** Views of the registry used in the statements *)

  (** The names in the order of the dictionary. *)
Definition keys (d : dict) : list string := List.map fst d.

  (** A name is bound once, to an object that carries that name. *)
Definition consistent (d : dict) : Prop :=
  NoDup (keys d)
  /\ Forall (fun kf : string * obj => __key (snd kf) = fst kf) d.

  (** What [is_set] answers. *)
Definition set_mark (d : dict) (key : string) : bool :=
  match lookup d key with
  | Some f => __isset f
  | None => false
  end.

  (** The lines of [output] between the header and the empty line. *)
Definition flag_lines (d : dict) : list line :=
  List.map (fun kf : string * obj =>
              report_line (__accum (snd kf)) (__key (snd kf))) d.

End EventFlags.

(* ===================================================================== *)
(** ** analysis_framework.py: the loop of [VANLModule] *)
(* ===================================================================== *)

Module VANLModule.

  (** The attributes of [self] that the loop reads and writes.  The times
      are the readings of [datetime.datetime.now()], in microseconds. *)
Record attributes : Type := mk_attributes {
  nentries : Z;
  print_frequency : Z;
  start_time : Z;
  prev_time : Z
}.

  (** What a run acts on: the registry of the class [EventFlags] (shared
      by every caller), the module object, the number of clock readings
      made so far and the lines printed so far. *)
Record world : Type := mk_world {
  evs : EventFlags.dict;
  self : attributes;
  ticks : nat;
  stdout : list line
}.

  (** A method call: it reads and writes the world and may raise. *)
Definition M (A : Type) : Type := world -> result (A * world).

Definition M_ret {A : Type} (a : A) : M A := fun w => Ok (a, w).

Definition M_bind {A B : Type} (c : M A) (k : A -> M B) : M B :=
  fun w =>
    match c w with
    | Ok (a, w') => k a w'
    | Raise e => Raise e
    | Unfinished => Unfinished
    end.

#[export] Instance Monad_M : Monad M :=
  {| ret := @M_ret; bind := @M_bind |}.

Definition lift {A : Type} (r : result A) : M A :=
  fun w =>
    match r with
    | Ok a => Ok (a, w)
    | Raise e => Raise e
    | Unfinished => Unfinished
    end.

Definition read_self : M attributes := fun w => Ok (self w, w).

Definition write_self (a : attributes) : M unit :=
  fun w => Ok (tt, mk_world (evs w) a (ticks w) (stdout w)).

Definition set_start_time (t : Z) : M unit :=
  a <- read_self ;;
  write_self (mk_attributes (nentries a) (print_frequency a) t (prev_time a)).

Definition set_prev_time (t : Z) : M unit :=
  a <- read_self ;;
  write_self (mk_attributes (nentries a) (print_frequency a) (start_time a) t).

Definition print (l : line) : M unit :=
  fun w => Ok (tt, mk_world (evs w) (self w) (ticks w) (stdout w ++ [l])).

Definition print_lines (ls : list line) : M unit :=
  fun w => Ok (tt, mk_world (evs w) (self w) (ticks w) (stdout w ++ ls)).

  (** The calls [evs.clear()], [evs.accumulate()] and [evs.output()]. *)
Definition evs_update (f : EventFlags.dict -> EventFlags.dict) : M unit :=
  fun w => Ok (tt, mk_world (f (evs w)) (self w) (ticks w) (stdout w)).

Definition evs_clear : M unit := evs_update EventFlags.clear.

Definition evs_accumulate : M unit := evs_update EventFlags.accumulate.

Definition evs_output : M unit :=
  fun w => print_lines (EventFlags.output (evs w)) w.

  (** A call of a class method of [EventFlags] from a user routine. *)
Definition evs_call {A : Type}
    (method : EventFlags.dict -> result (A * EventFlags.dict)) : M A :=
  fun w =>
    match method (evs w) with
    | Ok (a, d) => Ok (a, mk_world d (self w) (ticks w) (stdout w))
    | Raise e => Raise e
    | Unfinished => Unfinished
    end.

  (** The three methods a user module overrides. *)
Record hooks : Type := mk_hooks {
  user_before_loop : M stt.t;
  user_event_routine : Z -> M stt.t;
  user_after_loop : M stt.t
}.

  (** [range(n)] *)
Definition range (n : Z) : list Z :=
  List.map Z.of_nat (List.seq 0 (Z.to_nat n)).

Section Loop.

  (** The wall clock: [clock n] is the [n]-th reading, in microseconds. *)
Variable clock : nat -> Z.

Definition now : M Z :=
  fun w => Ok (clock (ticks w), mk_world (evs w) (self w) (S (ticks w)) (stdout w)).

  (** [_print_progress].  [int(current_entry)] is the identity on an int.
      [rest_time] starts as the int [0], printed as the float [0.0] is.
      The split of [rest_time] in hours, minutes and seconds belongs to
      the rendering of the line, which keeps [rest_time]. *)
Definition _print_progress (current_entry : Z) : M Z :=
  (if current_entry =? 0 then t <- now ;; set_start_time t else ret tt) ;;
  a <- read_self ;;
  r <- lift (int_mod current_entry (print_frequency a)) ;;
  (if r =? 0 then
     now_ <- now ;;
     let dt := total_seconds (now_ - start_time a) in
     let rest_entries := nentries a - current_entry in
     progress_in_dt <- lift (float_truediv (float_of_int current_entry) dt) ;;
     rest_time <-
       (if negb (PrimFloat.eqb progress_in_dt 0%float)
        then lift (float_truediv (float_of_int rest_entries) progress_in_dt)
        else ret 0%float) ;;
     set_prev_time now_ ;;
     ratio <- lift (int_truediv current_entry (nentries a)) ;;
     print (progress_line current_entry (nentries a)
              (PrimFloat.mul ratio 100%float) rest_time)
   else ret tt) ;;
  (if current_entry =? nentries a - 1 then print blank_line else ret tt) ;;
  ret current_entry.

  (** The helpers a user routine returns through. *)
Definition ok_event : M stt.t :=
  evs_accumulate ;; ret stt.OKEvent.

Definition skip_event : M stt.t :=
  evs_accumulate ;; ret stt.SkipEvent.

Definition quit_loop : M stt.t :=
  evs_accumulate ;;
  a <- read_self ;;
  _print_progress (nentries a - 1) ;;
  ret stt.QuitLoop.

Definition ok_before_loop : M stt.t := ret stt.OKFunc.
Definition error_before_loop : M stt.t := ret stt.ErrFunc.
Definition ok_after_loop : M stt.t := ret stt.OKFunc.
Definition error_after_loop : M stt.t := ret stt.ErrFunc.

Variable user : hooks.

  (** [_run_loop].  [self.input_tree.GetEntry] positions the record
      source, which is outside this model: it touches neither the
      registry nor the output. *)
Definition _run_loop (current_entry : Z) : M stt.t :=
  current_entry' <- _print_progress current_entry ;;
  user_event_routine user current_entry'.

  (** The [for entry in entry_list] loop of [run_analysis], with its
      [break]. *)
Fixpoint for_entries (entry_list : list Z) : M unit :=
  match entry_list with
  | [] => ret tt
  | entry :: rest =>
      evs_clear ;;
      r <- _run_loop entry ;;
      if stt.eqb r stt.QuitLoop then ret tt else for_entries rest
  end.

  (** [run_analysis] returns [stt.ErrFunc] or falls off the end
      ([None]).  The array [entries] is built and not used. *)
Definition run_analysis : M (option stt.t) :=
  b <- user_before_loop user ;;
  if negb (stt.eqb b stt.OKFunc) then ret (Some stt.ErrFunc)
  else
    a <- read_self ;;
    for_entries (range (nentries a)) ;;
    e <- user_after_loop user ;;
    if negb (stt.eqb e stt.OKFunc) then ret (Some stt.ErrFunc)
    else evs_output ;; ret None.

End Loop.

  (** Two clocks to run the loop with: one that advances by a millisecond
      from a reading to the next, one that does not advance. *)
Definition steady_clock (n : nat) : Z := 1000 * Z.of_nat n.

Definition stalled_clock (n : nat) : Z := 0.

  (** The routines of the base class; [user_before_loop] of the base
      class opens the files and is not modelled. *)
Definition base_event_routine (current_entry : Z) : M stt.t := ok_event.

Definition base_after_loop : M stt.t := ok_after_loop.

End VANLModule.

(* ===================================================================== *)
(** ** User modules to run the loop with *)
(* ===================================================================== *)

Module UserModules.

Import VANLModule.

  (** The body of a routine that counts the records it is called on:
      [evs.when( True, set_flag='seen' )]. *)
Definition count_body : M unit :=
  evs_call (fun d =>
              r <- EventFlags.when d true (Some "seen") None ;;
              ret (tt, snd r)).

  (** [user_event_routine] that counts every record and quits the loop
      at entry 2. *)
Definition quit_at_2 (clock : nat -> Z) (current_entry : Z) : M stt.t :=
  count_body ;;
  if current_entry =? 2 then quit_loop clock else ok_event.

  (** [user_event_routine] that counts every record and returns the
      status itself instead of a call of [ok_event]. *)
Definition bare_return (current_entry : Z) : M stt.t :=
  count_body ;; ret stt.OKEvent.

  (** A routine that behaves as [quit_at_2] unless it finds a flag that
      is already set when it starts. *)
Definition wary (clock : nat -> Z) (current_entry : Z) : M stt.t :=
  fun w =>
    if existsb (fun kf => EventFlags.__isset (snd kf)) (evs w)
    then Ok (stt.QuitLoop, w)
    else quit_at_2 clock current_entry w.

  (** [user_event_routine] that classifies the records:
      [evs.when( current_entry == 2, set_flag='hit',
      otherwise_set_flag='miss' )]. *)
Definition hit_or_miss (current_entry : Z) : M stt.t :=
  evs_call (fun d =>
              EventFlags.when d (current_entry =? 2) (Some "hit")
                (Some "miss")) ;;
  ok_event.

  (** The block under [if __name__ == '__main__'] of event_flags.py, from
      its first [define]: the four values printed and the report. *)
Definition main_block : result (bool * bool * bool * bool * list line) :=
  d <- EventFlags.define [] "test" ;;
  d <- EventFlags.define d "test" ;;
  d <- EventFlags.define d "test2" ;;
  d <- EventFlags.define d "otameshi" ;;
  r <- EventFlags.set d "test" 1%float ;;
  let d := snd r in
  p1 <- EventFlags.is_set d "test" ;;
  p2 <- EventFlags.any d ["test"; "test2"] ;;
  p3 <- EventFlags.all d ["test"; "test2"] ;;
  let p4 := EventFlags.has d "test2" in
  ret (p1, p2, p3, p4, EventFlags.output (EventFlags.accumulate d)).

  (** A module of ten records, a progress line every 100 records, no
      flag defined and nothing printed. *)
Definition ten_records : world :=
  mk_world [] (mk_attributes 10 100 0 0) 0 [].

End UserModules.

(* ===================================================================== *)
(** ** analysis_framework.py: the name of the output file *)
(* ===================================================================== *)

Module OutputName.

  (** Slices of a [str] with a start or an end that is not negative:
      [s[i:]] and [s[:i]]. *)
Fixpoint slice_from (s : string) (i : nat) {struct i} : string :=
  match i with
  | O => s
  | S i' =>
      match s with
      | String _ rest => slice_from rest i'
      | EmptyString => EmptyString
      end
  end.

Fixpoint slice_to (s : string) (i : nat) {struct i} : string :=
  match i with
  | O => EmptyString
  | S i' =>
      match s with
      | String a rest => String a (slice_to rest i')
      | EmptyString => EmptyString
      end
  end.

  (** [s.rfind(c)] for a character [c]: the index of its last
      occurrence, or -1.  [rfind_from] reads [s] from index [i] on and
      keeps the last index seen. *)
Fixpoint rfind_from (c : ascii) (s : string) (i last : Z) : Z :=
  match s with
  | EmptyString => last
  | String a rest =>
      rfind_from c rest (i + 1) (if Ascii.eqb a c then i else last)
  end.

Definition rfind (c : ascii) (s : string) : Z := rfind_from c s 0 (-1).

  (** [posixpath.basename]: [i = p.rfind('/') + 1; return p[i:]]. *)
Definition basename (p : string) : string :=
  let i := rfind "/" p + 1 in
  slice_from p (Z.to_nat i).

  (** The [while filenameIndex < dotIndex] loop of
      [genericpath._splitext], which skips the leading dots of the file
      name: [rounds] is the number of indices left before [dotIndex]. *)
Fixpoint skip_leading_dots (rounds : nat) (p : string)
    (filenameIndex dotIndex : Z) : string * string :=
  match rounds with
  | O => (p, EmptyString)
  | S rounds' =>
      if negb (String.eqb
                 (slice_to (slice_from p (Z.to_nat filenameIndex)) 1) ".")
      then (slice_to p (Z.to_nat dotIndex), slice_from p (Z.to_nat dotIndex))
      else skip_leading_dots rounds' p (filenameIndex + 1) dotIndex
  end.

  (** [posixpath.splitext]: [genericpath._splitext] with the separator
      ['/'], no alternative separator and the extension separator
      ['.']. *)
Definition splitext (p : string) : string * string :=
  let sepIndex := rfind "/" p in
  let dotIndex := rfind "." p in
  if dotIndex >? sepIndex then
    let filenameIndex := sepIndex + 1 in
    skip_leading_dots (Z.to_nat (dotIndex - filenameIndex)) p
      filenameIndex dotIndex
  else (p, EmptyString).

  (** [user_output_basename] of the base class. *)
Definition user_output_basename (file_name : string) : string :=
  let base := basename file_name in
  let (name, ext) := splitext base in
  name ++ "_out".

  (** [output_file_name] as [__init__] sets it. *)
Definition output_file_name (outdir input_file_name : string) : string :=
  let outbase := outdir ++ "/" ++ user_output_basename input_file_name in
  outbase ++ ".root".

  (** A view for the statements: the index of the last occurrence of a
      character, read off the string itself. *)
Fixpoint last_index (c : ascii) (s : string) : option nat :=
  match s with
  | EmptyString => None
  | String a rest =>
      match last_index c rest with
      | Some j => Some (S j)
      | None => if Ascii.eqb a c then Some O else None
      end
  end.

  (** A view for the statements: the string is made of dots only. *)
Fixpoint all_dots (s : string) : bool :=
  match s with
  | EmptyString => true
  | String a rest => Ascii.eqb a "." && all_dots rest
  end.

End OutputName.

(* ===================================================================== *)
(** ** analysis_framework.py: opening the files *)
(* ===================================================================== *)

Module RootFiles.

  (** [ROOT.TFile(name)] opens a file for reading,
      [ROOT.TFile(name, 'recreate')] creates one. *)
Inductive mode : Type :=
| read
| recreate.

  (** The lines the methods print. *)
Inductive message : Type :=
| error_opening (file_name : string)
| open_file (file_name : string)
| error_tree_not_found (tree_name input_file_name : string)
| load_tree (tree_name input_file_name : string)
| error_same_file (input_file_name : string)
| error_creating (file_name : string)
| new_file (file_name : string).

Section Root.

  (** ROOT is a library outside the repository: its files and trees are
      abstract, and what it answers is given.  [ROOT_TFile] is [None]
      when the object compares equal to [None]. *)
Variables TFile TTree : Type.
Variable ROOT_TFile : string -> mode -> option TFile.
Variable IsZombie : TFile -> bool.
Variable Get : TFile -> string -> option TTree.
Variable GetEntries : TTree -> Z.

  (** The attributes of the module that the methods read and write, and
      the lines printed so far.  An attribute that holds [None] or is
      not set yet is [None]. *)
Record attributes : Type := mk_attributes {
  input_file_name : string;
  input_tree_name : string;
  output_file_name : string;
  nentries : Z;
  input_file : option TFile;
  input_tree : option TTree;
  output_file : option TFile;
  printed : list message
}.

Definition print (m : message) (self : attributes) : attributes :=
  mk_attributes (input_file_name self) (input_tree_name self)
    (output_file_name self) (nentries self) (input_file self)
    (input_tree self) (output_file self) (printed self ++ [m]).

Definition set_nentries (n : Z) (self : attributes) : attributes :=
  mk_attributes (input_file_name self) (input_tree_name self)
    (output_file_name self) n (input_file self)
    (input_tree self) (output_file self) (printed self).

Definition set_input_file (f : option TFile) (self : attributes) : attributes :=
  mk_attributes (input_file_name self) (input_tree_name self)
    (output_file_name self) (nentries self) f
    (input_tree self) (output_file self) (printed self).

Definition set_input_tree (t : option TTree) (self : attributes) : attributes :=
  mk_attributes (input_file_name self) (input_tree_name self)
    (output_file_name self) (nentries self) (input_file self)
    t (output_file self) (printed self).

Definition set_output_file (f : option TFile) (self : attributes) : attributes :=
  mk_attributes (input_file_name self) (input_tree_name self)
    (output_file_name self) (nentries self) (input_file self)
    (input_tree self) f (printed self).

  (** The part of [__init__] that names the files and sets [nentries]. *)
Definition __init__ (input_file_name intree outdir : string) (nentries : Z)
  : attributes :=
  mk_attributes input_file_name intree
    (OutputName.output_file_name outdir input_file_name)
    nentries None None None [].

  (** [file == None or file.IsZombie() == True] *)
Definition unusable (file : option TFile) : bool :=
  match file with
  | None => true
  | Some f => Bool.eqb (IsZombie f) true
  end.

Definition _open_root (self : attributes) (file_name : string)
  : option TFile * attributes :=
  let file := ROOT_TFile file_name read in
  if unusable file then (None, print (error_opening file_name) self)
  else (file, print (open_file file_name) self).

Definition _load_tree (self : attributes) (tree_name : string)
  : option TTree * attributes :=
  match input_file self with
  | None => (None, self)
  | Some f =>
      match Get f tree_name with
      | None =>
          (None,
           print (error_tree_not_found tree_name (input_file_name self)) self)
      | Some tree =>
          let self1 := print (load_tree tree_name (input_file_name self)) self in
          let n := GetEntries tree in
          let self2 :=
            if (nentries self1 <? 0) || (n <? nentries self1)
            then set_nentries n self1 else self1 in
          (Some tree, self2)
      end
  end.

Definition _create_root (self : attributes) (file_name : string)
  : option TFile * attributes :=
  match input_file self with
  | None => (None, self)
  | Some _ =>
      if String.eqb file_name (input_file_name self)
      then (None, print (error_same_file (input_file_name self)) self)
      else
        let file := ROOT_TFile file_name recreate in
        if unusable file then (None, print (error_creating file_name) self)
        else (file, print (new_file file_name) self)
  end.

Definition is_None {A : Type} (x : option A) : bool :=
  match x with
  | None => true
  | Some _ => false
  end.

  (** [open_files]; [error_before_loop()] is [stt.ErrFunc] and
      [ok_before_loop()] is [stt.OKFunc]. *)
Definition open_files (self : attributes) : stt.t * attributes :=
  let (file, self) := _open_root self (input_file_name self) in
  let self := set_input_file file self in
  if is_None (input_file self) then (stt.ErrFunc, self)
  else
    let (tree, self) := _load_tree self (input_tree_name self) in
    let self := set_input_tree tree self in
    if is_None (input_tree self) then (stt.ErrFunc, self)
    else
      let (file, self) := _create_root self (output_file_name self) in
      let self := set_output_file file self in
      if is_None (output_file self) then (stt.ErrFunc, self)
      else (stt.OKFunc, self).

  (** [user_before_loop] of the base class; [is] on two members of the
      enumeration is their equality. *)
Definition user_before_loop (self : attributes) : stt.t * attributes :=
  let (r, self) := open_files self in
  if stt.eqb r stt.ErrFunc then (stt.ErrFunc, self)
  else (stt.OKFunc, self).

  (** A file that can be used: neither [None] nor a zombie. *)
Definition usable (file_name : string) (m : mode) (f : TFile) : Prop :=
  ROOT_TFile file_name m = Some f /\ IsZombie f = false.

End Root.

Arguments mk_attributes {TFile TTree}.
Arguments input_file_name {TFile TTree}.
Arguments input_tree_name {TFile TTree}.
Arguments output_file_name {TFile TTree}.
Arguments nentries {TFile TTree}.
Arguments input_file {TFile TTree}.
Arguments input_tree {TFile TTree}.
Arguments output_file {TFile TTree}.
Arguments printed {TFile TTree}.
Arguments print {TFile TTree}.
Arguments set_nentries {TFile TTree}.
Arguments set_input_file {TFile TTree}.
Arguments set_input_tree {TFile TTree}.
Arguments set_output_file {TFile TTree}.
Arguments __init__ {TFile TTree}.
Arguments unusable {TFile}.
Arguments _open_root {TFile TTree}.
Arguments _load_tree {TFile TTree}.
Arguments _create_root {TFile TTree}.
Arguments open_files {TFile TTree}.
Arguments user_before_loop {TFile TTree}.
Arguments usable {TFile}.

End RootFiles.

(* ===================================================================== *)
(** ** commandline_arguments.py: [ArrayAction] *)
(* ===================================================================== *)

Module ArrayAction.

  (** The checks of [__init__] and [__call__].  The function that reads
      the elements off the string of the command line ([type_func],
      with or without [sorted]) is handed to [argparse] and is not
      modelled. *)

  (** What the two methods raise.  [parser_error] is the call of
      [parser.error], which prints the usage and leaves the program. *)
Inductive error : Type :=
| ValueError_nargs
| TypeError_default
| AttributeError
| IndexError
| ValueError_empty
| ValueError_below
| ValueError_over
| parser_error.

Inductive outcome (A : Type) : Type :=
| Returns (a : A)
| Raises (e : error).

Arguments Returns {A} a.
Arguments Raises {A} e.

  (** The argument [nargs]: [None], an [int], or a value of another
      type (a string such as ['+'], a [bool]). *)
Inductive nargs_value : Type :=
| nargs_None
| nargs_int (n : Z)
| nargs_other.

  (** The attributes [__init__] sets; [default] is the one passed on to
      [argparse.Action]. *)
Record action : Type := mk_action {
  array_size : Z;
  min : option Z;
  max : option Z;
  sort : bool;
  default : list Z
}.

  (** [builtins.min] and [builtins.max] of a list of ints; both raise
      [ValueError] on an empty list. *)
Definition builtins_min (values : list Z) : outcome Z :=
  match values with
  | [] => Raises ValueError_empty
  | v :: rest => Returns (List.fold_left Z.min rest v)
  end.

Definition builtins_max (values : list Z) : outcome Z :=
  match values with
  | [] => Raises ValueError_empty
  | v :: rest => Returns (List.fold_left Z.max rest v)
  end.

  (** [if min != None and builtins.min(values) < min : raise ValueError]
      and the same for [max], followed by [k]. *)
Definition check_bounds {A : Type} (min max : option Z) (values : list Z)
    (k : outcome A) : outcome A :=
  let after_min (k' : outcome A) : outcome A :=
    match min with
    | None => k'
    | Some m =>
        match builtins_min values with
        | Raises e => Raises e
        | Returns lowest =>
            if lowest <? m then Raises ValueError_below else k'
        end
    end in
  after_min
    (match max with
     | None => k
     | Some m =>
         match builtins_max values with
         | Raises e => Raises e
         | Returns highest =>
             if m <? highest then Raises ValueError_over else k
         end
     end).

  (** [__init__].  The elements are ints.  [default] is [None] here when
      the argument is not a list; [type] is the conversion applied to
      the elements, [None] when it is not given.  The message of the
      [TypeError] reads [type.__name__], which fails when [type] is
      [None]. *)
Definition __init__ (nargs : nargs_value) (default : option (list Z))
    (type : option (Z -> Z)) (sort : bool) (min max : option Z)
  : outcome action :=
  match nargs with
  | nargs_None | nargs_other => Raises ValueError_nargs
  | nargs_int n =>
      match default with
      | None =>
          match type with
          | None => Raises AttributeError
          | Some _ => Raises TypeError_default
          end
      | Some default =>
          let chosen : outcome (Z -> Z) :=
            match type with
            | Some f => Returns f
            | None =>
                match default with
                | [] => Raises IndexError
                | _ :: _ => Returns (fun x => x)
                end
            end in
          match chosen with
          | Raises e => Raises e
          | Returns type =>
              let default := List.map type default in
              check_bounds min max default
                (Returns (mk_action n min max sort default))
          end
      end
  end.



End ArrayAction.

(* ===================================================================== *)
(** ** A disk to open the files on *)
(* ===================================================================== *)

Module Disk.

Import RootFiles.

  (** A file is known by its name and a tree by its number of entries.
      [missing.root] cannot be opened, [broken.root] is a zombie, and
      every other file holds one tree, [events], of 250 entries. *)
Definition ROOT_TFile (file_name : string) (m : mode) : option string :=
  if String.eqb file_name "missing.root" then None else Some file_name.

Definition IsZombie (file : string) : bool := String.eqb file "broken.root".

Definition Get (file : string) (tree_name : string) : option Z :=
  if String.eqb tree_name "events" then Some 250 else None.

Definition GetEntries (tree : Z) : Z := tree.

End Disk.

Import EventFlags.
Import VANLModule.
Import UserModules.

(* ===================================================================== *)
(** ** The registry: lookups *)
(* ===================================================================== *)

Lemma bind_Ok {A B : Type} (a : A) (k : A -> result B) :
  (x <- Ok a ;; k x) = k a.
Proof. reflexivity. Qed.

Section Lookups.

Implicit Types (d : dict) (key : string) (f : obj).

Lemma has_lookup d key :
  has d key = match lookup d key with Some _ => true | None => false end.
Proof.
  unfold has, lookup.
  induction d as [| [k g] rest IH]; cbn; [reflexivity |].
  destruct (String.eqb k key); [reflexivity | exact IH].
Qed.

Lemma getitem_lookup d key :
  getitem d key =
  match lookup d key with Some f => Ok f | None => Raise (KeyError key) end.
Proof.
  unfold lookup.
  induction d as [| [k g] rest IH]; cbn; [reflexivity |].
  destruct (String.eqb k key); [reflexivity | exact IH].
Qed.

Lemma has_true_lookup d key :
  has d key = true -> exists f, lookup d key = Some f.
Proof.
  rewrite has_lookup. destruct (lookup d key) as [f |]; [eauto | discriminate].
Qed.

Lemma has_false_lookup d key : has d key = false -> lookup d key = None.
Proof.
  rewrite has_lookup. destruct (lookup d key); [discriminate | reflexivity].
Qed.

Lemma get_lookup d key : get d key = Ok (option_map __count (lookup d key)).
Proof.
  unfold get. rewrite getitem_lookup, has_lookup.
  destruct (lookup d key); reflexivity.
Qed.

Lemma integral_lookup d key :
  integral d key = Ok (option_map __accum (lookup d key)).
Proof.
  unfold integral. rewrite getitem_lookup, has_lookup.
  destruct (lookup d key); reflexivity.
Qed.

Lemma is_set_lookup d key :
  is_set d key =
  Ok (match lookup d key with Some f => __isset f | None => false end).
Proof.
  unfold is_set. rewrite getitem_lookup, has_lookup.
  destruct (lookup d key); reflexivity.
Qed.

  (** [setattr] succeeds on a bound name and changes that binding only. *)
Lemma setattr_lookup d key upd f :
  lookup d key = Some f ->
  exists d', setattr d key upd = Ok d'
    /\ forall key', lookup d' key' =
         if String.eqb key key' then Some (upd f) else lookup d key'.
Proof.
  unfold lookup.
  induction d as [| [k g] rest IH]; cbn; [discriminate |].
  destruct (String.eqb k key) eqn:E.
  - intros [= ->]. eexists; split; [reflexivity |].
    apply String.eqb_eq in E; subst k. intros key'. cbn.
    destruct (String.eqb key key'); reflexivity.
  - intros H. destruct (IH H) as (d' & -> & Hd'). cbn.
    eexists; split; [reflexivity |]. intros key'. cbn.
    destruct (String.eqb k key') eqn:E'.
    + apply String.eqb_eq in E'; subst key'.
      rewrite String.eqb_sym, E. reflexivity.
    + apply Hd'.
Qed.

  (** [setitem] on a new name appends the binding. *)
Lemma setitem_new d key f :
  lookup d key = None -> setitem d key f = (d ++ [(key, f)])%list.
Proof.
  unfold lookup.
  induction d as [| [k g] rest IH]; cbn; [reflexivity |].
  destruct (String.eqb k key); [discriminate |].
  intros H. rewrite (IH H). reflexivity.
Qed.

Lemma lookup_app d key f key' :
  lookup (d ++ [(key, f)])%list key' =
  match lookup d key' with
  | Some g => Some g
  | None => if String.eqb key key' then Some f else None
  end.
Proof.
  unfold lookup.
  induction d as [| [k g] rest IH]; cbn; [reflexivity |].
  destruct (String.eqb k key'); [reflexivity | exact IH].
Qed.

End Lookups.

(* ===================================================================== *)
(** ** The registry: define, set, add *)
(* ===================================================================== *)

Section Updates.

Implicit Types (d : dict) (key : string) (f : obj) (val : float).

Lemma define_old d key : has d key = true -> define d key = Ok d.
Proof. intros H. unfold define. rewrite H. reflexivity. Qed.

Lemma define_new d key :
  has d key = false -> define d key = Ok (d ++ [(key, fresh key)])%list.
Proof.
  intros H. unfold define, __init__. rewrite H. cbn.
  rewrite setitem_new by (apply has_false_lookup; exact H). reflexivity.
Qed.

Lemma define_missing_lookup d key :
  exists d', define_missing d (Some key) = Ok d'
    /\ forall key', lookup d' key' =
         match lookup d key' with
         | Some g => Some g
         | None => if String.eqb key key' then Some (fresh key) else None
         end.
Proof.
  unfold define_missing. destruct (has d key) eqn:H; cbn.
  - exists d. split; [reflexivity |]. intros key'.
    destruct (lookup d key') eqn:L; [reflexivity |].
    destruct (String.eqb key key') eqn:E; [| reflexivity].
    apply String.eqb_eq in E; subst key'.
    apply has_true_lookup in H. destruct H as [f H]. congruence.
  - rewrite (define_new _ _ H). eexists; split; [reflexivity |].
    intros key'. apply lookup_app.
Qed.

Lemma set_undefined d key val :
  has d key = false -> set d key val = Ok (Some false, d).
Proof. intros H. unfold set. rewrite H. reflexivity. Qed.

Lemma add_undefined d key val :
  has d key = false -> add d key val = Ok (Some false, d).
Proof. intros H. unfold add. rewrite H. reflexivity. Qed.

Lemma set_defined d key val f :
  lookup d key = Some f ->
  exists d', set d key val = Ok (None, d')
    /\ forall key', lookup d' key' =
         if String.eqb key key'
         then Some (mk_obj (__key f) val true (__accum f))
         else lookup d key'.
Proof.
  intros L. unfold set. rewrite has_lookup, L. cbn.
  destruct (setattr_lookup d key (with_count val) f L) as (d1 & -> & H1).
  cbn. pose proof (H1 key) as L1. rewrite String.eqb_refl in L1.
  destruct (setattr_lookup d1 key (with_isset true) _ L1) as (d2 & -> & H2).
  cbn. eexists; split; [reflexivity |]. intros key'.
  rewrite H2, H1. destruct (String.eqb key key'); reflexivity.
Qed.

Lemma add_defined d key val f :
  lookup d key = Some f ->
  exists d', add d key val = Ok (None, d')
    /\ forall key', lookup d' key' =
         if String.eqb key key'
         then Some (mk_obj (__key f) (PrimFloat.add (__count f) val) true
                      (__accum f))
         else lookup d key'.
Proof.
  intros L. unfold add. rewrite has_lookup, L. cbn.
  destruct (setattr_lookup d key
              (fun g => with_count (PrimFloat.add (__count g) val) g) f L)
    as (d1 & -> & H1).
  cbn. pose proof (H1 key) as L1. rewrite String.eqb_refl in L1.
  destruct (setattr_lookup d1 key (with_isset true) _ L1) as (d2 & -> & H2).
  cbn. eexists; split; [reflexivity |]. intros key'.
  rewrite H2, H1. destruct (String.eqb key key'); reflexivity.
Qed.

Lemma lookup_accumulate d key :
  lookup (accumulate d) key =
  option_map (fun f => mk_obj (__key f) 0%float false
                         (PrimFloat.add (__accum f) (__count f)))
             (lookup d key).
Proof.
  unfold lookup, accumulate.
  induction d as [| [k g] rest IH]; cbn; [reflexivity |].
  destruct (String.eqb k key); [reflexivity | exact IH].
Qed.

Lemma lookup_clear d key :
  lookup (clear d) key =
  option_map (fun f => mk_obj (__key f) 0%float false (__accum f))
             (lookup d key).
Proof.
  unfold lookup, clear.
  induction d as [| [k g] rest IH]; cbn; [reflexivity |].
  destruct (String.eqb k key); [reflexivity | exact IH].
Qed.

End Updates.

(* ===================================================================== *)
(** ** Properties of the registry *)
(* ===================================================================== *)

Section Registry.

Implicit Types (d : dict) (key : string) (f : obj).

  (** The main block of event_flags.py prints [True], [True], [False],
      [True] and a report of three flags in the order of their
      definition. *)
Example main_block_output :
  main_block =
  Ok (true, true, false, true,
      [report_header 3; report_line 1%float "test";
       report_line 0%float "test2"; report_line 0%float "otameshi";
       blank_line]).
Proof. vm_compute. reflexivity. Qed.

(** C2, as stated, at a flag with current value 1 and total 0: the claim
    wants the second of two [accumulate] in a row to add the 1 again;
    the total after the two calls is not [(0 + 1) + 1]. *)
Lemma accumulate_twice_no_double_count :
  let d := [("x", mk_obj "x" 1%float true 0%float)] in
  integral (accumulate (accumulate d)) "x"
  <> Ok (Some (PrimFloat.add (PrimFloat.add 0%float 1%float) 1%float)).
Proof.
  cbv zeta. intros H.
  apply (f_equal (fun r => match r with
                           | Ok (Some x) => PrimFloat.eqb x 1%float
                           | _ => false
                           end)) in H.
  vm_compute in H. discriminate.
Qed.

(** C2, amended: [accumulate] adds the current value of every flag to
    its total and puts the current value back to 0; a second
    [accumulate] in a row therefore adds 0, and the value the flag had
    before the first call is counted once. *)
Theorem accumulate_adds_current_value d key f :
  lookup d key = Some f ->
  integral (accumulate d) key
    = Ok (Some (PrimFloat.add (__accum f) (__count f)))
  /\ get (accumulate d) key = Ok (Some 0%float)
  /\ is_set (accumulate d) key = Ok false
  /\ integral (accumulate (accumulate d)) key
     = Ok (Some (PrimFloat.add (PrimFloat.add (__accum f) (__count f))
                   0%float)).
Proof.
  intros L.
  rewrite !integral_lookup, get_lookup, is_set_lookup, !lookup_accumulate, L.
  cbn. repeat split; reflexivity.
Qed.

  (** A flag with current value 1 and total 2: 3 after one call, and
      still 3 after a second one. *)
Lemma accumulate_adds_current_value_witness :
  let d := [("x", mk_obj "x" 1%float true 2%float)] in
  integral (accumulate d) "x" = Ok (Some 3%float)
  /\ integral (accumulate (accumulate d)) "x" = Ok (Some 3%float).
Proof.
  cbv zeta.
  destruct (accumulate_adds_current_value
              [("x", mk_obj "x" 1%float true 2%float)] "x"
              (mk_obj "x" 1%float true 2%float) eq_refl)
    as (H1 & _ & _ & H2).
  split; [exact H1 | exact H2].
Defined.

(** C7, as stated, at a flag whose current value is 5 (it was set
    earlier in the record): the two [add] do not leave [1 + 2]. *)
Lemma add_twice_keeps_earlier_value :
  let d := [("x", mk_obj "x" 5%float true 0%float)] in
  ~ (forall d1 d2,
       add d "x" 1%float = Ok (None, d1) ->
       add d1 "x" 2%float = Ok (None, d2) ->
       get d2 "x" = Ok (Some (PrimFloat.add 1%float 2%float))).
Proof.
  cbv zeta. intros H.
  specialize (H _ _ eq_refl eq_refl).
  apply (f_equal (fun r => match r with
                           | Ok (Some x) => PrimFloat.eqb x 8%float
                           | _ => false
                           end)) in H.
  vm_compute in H. discriminate.
Qed.

(** C7, amended: on a defined flag whose current value is [c], two
    [set] in a row leave the value of the second one, and two [add] in a
    row leave [(c + v) + w]; both mark the flag as set.  On an undefined
    name [set] and [add] return [False] and leave the registry as it
    is. *)
Theorem set_overwrites_add_sums d key (v w : float) :
  (forall f, lookup d key = Some f ->
     (exists d1 d2,
        set d key v = Ok (None, d1) /\ set d1 key w = Ok (None, d2)
        /\ get d2 key = Ok (Some w) /\ is_set d2 key = Ok true)
     /\ (exists d1 d2,
           add d key v = Ok (None, d1) /\ add d1 key w = Ok (None, d2)
           /\ get d2 key
              = Ok (Some (PrimFloat.add (PrimFloat.add (__count f) v) w))
           /\ is_set d2 key = Ok true))
  /\ (has d key = false ->
      set d key v = Ok (Some false, d) /\ add d key v = Ok (Some false, d)).
Proof.
  split.
  - intros f L. split.
    + destruct (set_defined d key v f L) as (d1 & E1 & H1).
      pose proof (H1 key) as L1. rewrite String.eqb_refl in L1.
      destruct (set_defined d1 key w _ L1) as (d2 & E2 & H2).
      exists d1, d2. rewrite get_lookup, is_set_lookup, H2, String.eqb_refl.
      cbn. auto.
    + destruct (add_defined d key v f L) as (d1 & E1 & H1).
      pose proof (H1 key) as L1. rewrite String.eqb_refl in L1.
      destruct (add_defined d1 key w _ L1) as (d2 & E2 & H2).
      exists d1, d2. rewrite get_lookup, is_set_lookup, H2, String.eqb_refl.
      cbn. auto.
  - intros H. split; [apply set_undefined | apply add_undefined]; exact H.
Qed.

  (** A new flag ["x"]: 3 after [add] of 1 and 2; [set] of an unknown
      ["y"] returns [False]. *)
Lemma set_overwrites_add_sums_witness :
  let d := [("x", fresh "x")] in
  (exists d1 d2,
     add d "x" 1%float = Ok (None, d1) /\ add d1 "x" 2%float = Ok (None, d2)
     /\ get d2 "x" = Ok (Some 3%float))
  /\ set d "y" 1%float = Ok (Some false, d).
Proof.
  cbv zeta.
  destruct (set_overwrites_add_sums [("x", fresh "x")] "x" 1%float 2%float)
    as (Hdef & _).
  destruct (Hdef (fresh "x") eq_refl) as (_ & d1 & d2 & E1 & E2 & G & _).
  destruct (set_overwrites_add_sums [("x", fresh "x")] "y" 1%float 2%float)
    as (_ & Hundef).
  split.
  - exists d1, d2. repeat split; [exact E1 | exact E2 | exact G].
  - exact (proj1 (Hundef eq_refl)).
Defined.

(** C9: for a name that is not in the registry the queries return
    without raising: [is_set] (and with it [any] and [all] on that name)
    returns [False], [get] and [integral] return [None], which is not the
    number zero. *)
Theorem undefined_flag_queries d key :
  has d key = false ->
  is_set d key = Ok false
  /\ get d key = Ok None
  /\ integral d key = Ok None
  /\ get d key <> Ok (Some 0%float)
  /\ integral d key <> Ok (Some 0%float)
  /\ any d [key] = Ok false
  /\ all d [key] = Ok false.
Proof.
  intros H. apply has_false_lookup in H.
  assert (I : is_set d key = Ok false) by (rewrite is_set_lookup, H; reflexivity).
  assert (G : get d key = Ok None) by (rewrite get_lookup, H; reflexivity).
  assert (T : integral d key = Ok None)
    by (rewrite integral_lookup, H; reflexivity).
  repeat split; try assumption.
  - rewrite G. discriminate.
  - rewrite T. discriminate.
  - cbn. rewrite I. reflexivity.
  - cbn. rewrite I. reflexivity.
Qed.

  (** A registry with the flag ["x"] at 0: [get] of the unknown ["y"] is
      [None], [get] of ["x"] is the number 0. *)
Lemma undefined_flag_queries_witness :
  let d := [("x", mk_obj "x" 0%float false 0%float)] in
  get d "y" = Ok None /\ get d "x" = Ok (Some 0%float).
Proof.
  cbv zeta. split; [| reflexivity].
  exact (proj1 (proj2 (undefined_flag_queries
                         [("x", mk_obj "x" 0%float false 0%float)] "y"
                         eq_refl))).
Defined.

(** C6, as stated, at a registry where ["B"] was already set in the
    record (for instance by [when(False, "A", "B")]): after
    [when(True, "A", "B")] the current value of the other flag, ["B"],
    is not 0. *)
Lemma when_keeps_other_flag_value :
  let d := [("A", fresh "A"); ("B", mk_obj "B" 1%float true 0%float)] in
  ~ (forall d',
       when d true (Some "A") (Some "B") = Ok (true, d') ->
       get d' "B" = Ok (Some 0%float)).
Proof.
  cbv zeta. intros H. specialize (H _ eq_refl).
  apply (f_equal (fun r => match r with
                           | Ok (Some x) => PrimFloat.eqb x 1%float
                           | _ => false
                           end)) in H.
  vm_compute in H. discriminate.
Qed.

  (** The registry after the two [define] of [when]. *)
Lemma when_defines_both d (a b : string) :
  exists d1 d2,
    define_missing d (Some a) = Ok d1
    /\ define_missing d1 (Some b) = Ok d2
    /\ forall key', lookup d2 key' =
         match lookup d key' with
         | Some g => Some g
         | None => if String.eqb a key' then Some (fresh a)
                   else if String.eqb b key' then Some (fresh b) else None
         end.
Proof.
  destruct (define_missing_lookup d a) as (d1 & E1 & H1).
  destruct (define_missing_lookup d1 b) as (d2 & E2 & H2).
  exists d1, d2. split; [exact E1 |]. split; [exact E2 |].
  intros key'. rewrite H2, H1.
  destruct (lookup d key'); [reflexivity |].
  destruct (String.eqb a key'); reflexivity.
Qed.

(** C6, amended: for two different names, [when] defines both whatever
    the condition is, sets the flag that matches the condition to the
    default 1.0 (which is not zero) and marks it set, leaves the current
    value and the set mark of the other flag as they were (0 and not set
    for a flag it has just defined), and returns the condition. *)
Theorem when_sets_matching_flag d (condition : bool) (a b : string) :
  a <> b ->
  let chosen := if condition then a else b in
  let other := if condition then b else a in
  exists d',
    when d condition (Some a) (Some b) = Ok (condition, d')
    /\ has d' a = true /\ has d' b = true
    /\ get d' chosen = Ok (Some 1%float)
    /\ PrimFloat.eqb 1%float 0%float = false
    /\ is_set d' chosen = Ok true
    /\ get d' other = (if has d other then get d other else Ok (Some 0%float))
    /\ is_set d' other = (if has d other then is_set d other else Ok false).
Proof.
  intros Hab chosen other.
  assert (Eab : String.eqb a b = false) by (apply String.eqb_neq; exact Hab).
  assert (Eba : String.eqb b a = false) by (rewrite String.eqb_sym; exact Eab).
  destruct (when_defines_both d a b) as (d1 & d2 & E1 & E2 & H2).
  assert (Hc : exists g, lookup d2 chosen = Some g).
  { rewrite H2. subst chosen. destruct condition.
    - destruct (lookup d a); [eauto |]. rewrite String.eqb_refl. eauto.
    - destruct (lookup d b); [eauto |]. rewrite Eab, String.eqb_refl. eauto. }
  destruct Hc as (g & Lg).
  destruct (set_defined d2 chosen 1%float g Lg) as (d3 & E3 & H3).
  assert (Eco : String.eqb chosen other = false)
    by (subst chosen other; destruct condition; assumption).
  assert (Lo : lookup d3 other =
               match lookup d other with
               | Some h => Some h
               | None => Some (fresh other)
               end).
  { rewrite H3, Eco, H2. subst other.
    destruct condition.
    - destruct (lookup d b); [reflexivity |].
      rewrite Eab, String.eqb_refl. reflexivity.
    - destruct (lookup d a); [reflexivity |].
      rewrite String.eqb_refl. reflexivity. }
  assert (Lc : lookup d3 chosen = Some (mk_obj (__key g) 1%float true (__accum g)))
    by (rewrite H3, String.eqb_refl; reflexivity).
  exists d3. split.
  { unfold when. rewrite E1, bind_Ok, E2, bind_Ok. subst chosen.
    destruct condition; cbn in *; rewrite E3; reflexivity. }
  assert (Ha : has d3 a = true /\ has d3 b = true).
  { rewrite !has_lookup. subst chosen other.
    destruct condition; rewrite Lc, Lo;
      [destruct (lookup d b) | destruct (lookup d a)]; auto. }
  destruct Ha as (Ha & Hb).
  repeat split; try assumption.
  - rewrite get_lookup, Lc. reflexivity.
  - rewrite is_set_lookup, Lc. reflexivity.
  - rewrite get_lookup, Lo, has_lookup, get_lookup.
    destruct (lookup d other); reflexivity.
  - rewrite is_set_lookup, Lo, has_lookup, is_set_lookup.
    destruct (lookup d other); reflexivity.
Qed.

  (** [when(True, "A", "B")] on an empty registry. *)
Lemma when_sets_matching_flag_witness :
  exists d',
    when [] true (Some "A") (Some "B") = Ok (true, d')
    /\ get d' "A" = Ok (Some 1%float)
    /\ get d' "B" = Ok (Some 0%float).
Proof.
  destruct (when_sets_matching_flag [] true "A" "B")
    as (d' & E & _ & _ & GA & _ & _ & GB & _).
  - discriminate.
  - exists d'. repeat split; [exact E | exact GA | exact GB].
Defined.

(** C10: whatever the registry holds, [status] raises [NameError]: the
    name its body reads, [__status] mangled to [_EventFlags__status], is
    an attribute of the class and is bound in no scope of the method, so
    the call never returns a value. *)
Theorem status_raises_NameError d :
  status d = Raise (NameError "_EventFlags__status")
  /\ (forall v, status d <> Ok v)
  /\ load_class_attribute d "_EventFlags__status" = Some (a_status stt.OKEvent).
Proof.
  split; [reflexivity |]. split; [| reflexivity].
  intros v H. discriminate H.
Qed.

End Registry.

(* ===================================================================== *)
(** ** Names with a suffix: [__newkey] and the constructor *)
(* ===================================================================== *)

Section NewKey.

Implicit Types (d : dict) (key : string).

Lemma append_cancel_l (s a b : string) : (s ++ a = s ++ b)%string -> a = b.
Proof.
  induction s as [| c s IH]; cbn; [trivial |].
  intros [= H]. exact (IH H).
Qed.

Lemma format_d_inj (i j : Z) : format_d i = format_d j -> i = j.
Proof.
  unfold format_d. intros H.
  apply (f_equal NilEmpty.int_of_string) in H.
  rewrite !NilEmpty.isi in H. injection H as H.
  exact (DecimalZ.to_int_inj _ _ H).
Qed.

Lemma candidate_inj key (i j : Z) :
  (key ++ "-" ++ format_d i = key ++ "-" ++ format_d j)%string -> i = j.
Proof.
  intros H. apply append_cancel_l in H. apply append_cancel_l in H.
  exact (format_d_inj _ _ H).
Qed.

Lemma has_In d key : has d key = true -> In key (List.map fst d).
Proof.
  unfold has.
  induction d as [| [k g] rest IH]; cbn; [discriminate |].
  destruct (String.eqb k key) eqn:E.
  - apply String.eqb_eq in E. auto.
  - intros H. right. exact (IH H).
Qed.

  (** One candidate more than there are flags: one of them is unused. *)
Lemma unused_candidate d key :
  exists k, 2 <= k < 2 + Z.of_nat (S (List.length d))
    /\ has d (key ++ "-" ++ format_d k) = false.
Proof.
  set (cand := fun i : nat => (key ++ "-" ++ format_d (2 + Z.of_nat i))%string).
  set (L := List.map cand (List.seq 0 (S (List.length d)))).
  destruct (existsb (fun c => negb (has d c)) L) eqn:E.
  - apply existsb_exists in E. destruct E as (c & Hc & Hn).
    apply in_map_iff in Hc. destruct Hc as (i & <- & Hi).
    apply in_seq in Hi. exists (2 + Z.of_nat i). split; [lia |].
    apply negb_true_iff in Hn. exact Hn.
  - exfalso.
    assert (Hall : forall c, In c L -> has d c = true).
    { intros c Hc. destruct (has d c) eqn:Hd; [reflexivity |].
      assert (X : existsb (fun c => negb (has d c)) L = true).
      { apply existsb_exists. exists c. rewrite Hd. auto. }
      congruence. }
    assert (Hnd : NoDup L).
    { apply Finite.Injective_map_NoDup; [| apply seq_NoDup].
      intros i j Hij. apply candidate_inj in Hij. lia. }
    assert (Hincl : incl L (List.map fst d)).
    { intros c Hc. apply has_In. apply Hall. exact Hc. }
    pose proof (NoDup_incl_length Hnd Hincl) as Hlen.
    unfold L in Hlen. rewrite !length_map, length_seq in Hlen. lia.
Qed.

  (** The loop stops at the first unused candidate at or after [iter]
      when there is one within its rounds. *)
Lemma newkey_loop_first_unused d key (fuel : nat) :
  forall iter,
    (exists k, iter <= k < iter + Z.of_nat fuel
       /\ has d (key ++ "-" ++ format_d k) = false) ->
    exists k, iter <= k
      /\ __newkey_loop fuel d key iter = Ok (key ++ "-" ++ format_d k)%string
      /\ has d (key ++ "-" ++ format_d k) = false
      /\ forall j, iter <= j < k -> has d (key ++ "-" ++ format_d j) = true.
Proof.
  induction fuel as [| fuel IH]; intros iter (k & Hk & Hu); [lia |].
  cbn [__newkey_loop].
  destruct (has d (key ++ "-" ++ format_d iter)) eqn:Hi; cbn [Bool.eqb].
  - assert (Hne : k <> iter) by (intros ->; congruence).
    destruct (IH (iter + 1)) as (k' & Hk' & E & Hu' & Hbelow).
    { exists k. split; [lia | exact Hu]. }
    exists k'. split; [lia |]. split; [exact E |]. split; [exact Hu' |].
    intros j Hj. destruct (Z.eq_dec j iter) as [-> | Hji]; [exact Hi |].
    apply Hbelow. lia.
  - exists iter. split; [lia |]. split; [reflexivity |]. split; [exact Hi |].
    intros j Hj. lia.
Qed.

  (** [__newkey] always returns, with the smallest unused suffix from 2. *)
Lemma newkey_smallest_unused d key :
  exists k, 2 <= k
    /\ __newkey d key = Ok (key ++ "-" ++ format_d k)%string
    /\ has d (key ++ "-" ++ format_d k) = false
    /\ forall j, 2 <= j < k -> has d (key ++ "-" ++ format_d j) = true.
Proof.
  unfold __newkey. apply newkey_loop_first_unused. apply unused_candidate.
Qed.

(** C4, as stated: two constructions in a row with ["x"] on a registry
    without ["x"] do not yield ["x"] and then ["x-2"] (the first one
    registers nothing, so the registry the second one reads is the same),
    and two [define] in a row do not register ["x-2"]. *)
Lemma constructor_twice_same_name :
  ~ (exists f1 d1 f2 d2,
       __init__ [] "x" = Ok (f1, d1) /\ __init__ d1 "x" = Ok (f2, d2)
       /\ __key f1 = "x" /\ __key f2 = "x-2"
       /\ has d2 "x" = true /\ has d2 "x-2" = true)
  /\ ~ (forall d1 d2,
          define [] "x" = Ok d1 -> define d1 "x" = Ok d2 ->
          has d2 "x" = true /\ has d2 "x-2" = true).
Proof.
  split.
  - intros (f1 & d1 & f2 & d2 & E1 & E2 & K1 & K2 & _).
    cbn in E1. injection E1 as <- <-.
    cbn in E2. injection E2 as <- <-. cbn in K2. discriminate K2.
  - intros H. destruct (H _ _ eq_refl eq_refl) as (_ & H2).
    vm_compute in H2. discriminate H2.
Qed.

(** C4, amended: on a name that is already registered the constructor
    names the new object [name-k] for the smallest [k >= 2] such that
    [name-k] is unused, and on a new name it keeps the name; it leaves
    the registry as it found it.  [define], the operation that registers, does nothing
    on a registered name and appends a flag under the name itself
    otherwise, so no suffixed name is ever registered by it. *)
Theorem constructor_smallest_unused_suffix d key :
  (has d key = true ->
     (exists k, 2 <= k
        /\ __init__ d key = Ok (fresh (key ++ "-" ++ format_d k), d)
        /\ has d (key ++ "-" ++ format_d k) = false
        /\ forall j, 2 <= j < k -> has d (key ++ "-" ++ format_d j) = true)
     /\ define d key = Ok d)
  /\ (has d key = false ->
      __init__ d key = Ok (fresh key, d)
      /\ define d key = Ok (d ++ [(key, fresh key)])%list).
Proof.
  split; intros H.
  - split; [| apply define_old; exact H].
    destruct (newkey_smallest_unused d key) as (k & Hk & E & Hu & Hbelow).
    exists k. split; [exact Hk |]. split; [| split; assumption].
    unfold __init__. rewrite H, E. reflexivity.
  - split; [| apply define_new; exact H].
    unfold __init__. rewrite H. reflexivity.
Qed.

  (** A registry with ["x"] and ["x-2"]. *)
Lemma constructor_smallest_unused_suffix_witness :
  let d := [("x", fresh "x"); ("x-2", fresh "x-2")] in
  has d "x" = true
  /\ (exists k,
        2 <= k /\ __init__ d "x" = Ok (fresh ("x" ++ "-" ++ format_d k), d))
  /\ define d "x" = Ok d
  /\ define d "y" = Ok (d ++ [("y", fresh "y")])%list.
Proof.
  cbv zeta.
  destruct (constructor_smallest_unused_suffix
              [("x", fresh "x"); ("x-2", fresh "x-2")] "x") as (Hold & _).
  destruct (Hold eq_refl) as ((k & Hk & E & _) & Hdef).
  destruct (constructor_smallest_unused_suffix
              [("x", fresh "x"); ("x-2", fresh "x-2")] "y") as (_ & Hnew).
  destruct (Hnew eq_refl) as (_ & Hdef').
  split; [reflexivity |]. split; [exists k; split; assumption |].
  split; [exact Hdef | exact Hdef'].
Defined.

End NewKey.

(* ===================================================================== *)
(** ** The loop: method calls *)
(* ===================================================================== *)

Section Calls.

Context {A B : Type}.
Implicit Types (c : M A) (k : A -> M B) (w : world).

Lemma M_bind_Ok c k w a w' :
  c w = Ok (a, w') -> (x <- c ;; k x) w = k a w'.
Proof. intros H. cbn. unfold M_bind. rewrite H. reflexivity. Qed.

Lemma M_bind_Raise c k w e :
  c w = Raise e -> (x <- c ;; k x) w = Raise e.
Proof. intros H. cbn. unfold M_bind. rewrite H. reflexivity. Qed.

Lemma M_bind_Unfinished c k w :
  c w = Unfinished -> (x <- c ;; k x) w = Unfinished.
Proof. intros H. cbn. unfold M_bind. rewrite H. reflexivity. Qed.

  (** Two continuations that agree on what the call returns. *)
Lemma M_bind_cong c k k' w :
  (forall a w', c w = Ok (a, w') -> k a w' = k' a w') ->
  (x <- c ;; k x) w = (x <- c ;; k' x) w.
Proof.
  intros H. cbn. unfold M_bind.
  destruct (c w) as [[a w'] | e |]; [apply H |..]; reflexivity.
Qed.

End Calls.

Lemma M_bind_assoc {A B C : Type} (c : M A) (k : A -> M B) (g : B -> M C) w :
  (y <- (x <- c ;; k x) ;; g y) w = (x <- c ;; y <- k x ;; g y) w.
Proof.
  cbn. unfold M_bind. destruct (c w) as [[a w'] | e |]; reflexivity.
Qed.

#[local] Arguments total_seconds : simpl never.
#[local] Arguments float_of_int : simpl never.
#[local] Arguments float_truediv : simpl never.
#[local] Arguments int_truediv : simpl never.

Section Progress.

Variable clock : nat -> Z.

Lemma total_seconds_0 : total_seconds 0 = 0%float.
Proof. vm_compute. reflexivity. Qed.

  (** [_print_progress] returns the entry it is given and leaves the
      registry alone. *)
Lemma print_progress_returns entry w r w' :
  _print_progress clock entry w = Ok (r, w') -> r = entry /\ evs w' = evs w.
Proof.
  unfold _print_progress. cbn. unfold M_bind.
  destruct (entry =? 0); cbn.
  all: unfold lift, int_mod; cbn.
  all: destruct (print_frequency (self w) =? 0); cbn; try discriminate.
  all: destruct (entry mod print_frequency (self w) =? 0); cbn.
  all: repeat match goal with
       | |- context [float_truediv ?a ?b] =>
           destruct (float_truediv a b); cbn; try discriminate
       | |- context [int_truediv ?a ?b] =>
           destruct (int_truediv a b); cbn; try discriminate
       | |- context [if ?b then _ else _] => destruct b; cbn; try discriminate
       end.
  all: intros [= <- <-]; split; reflexivity.
Qed.

Lemma float_truediv_0 (a : float) :
  float_truediv a 0%float = Raise ZeroDivisionError.
Proof. reflexivity. Qed.

(** C3, on the code: when the progress is computed (the entry is a
    multiple of [print_frequency]) and no time has elapsed since
    [start_time], [_print_progress] raises [ZeroDivisionError] at
    [current_entry/dt]; it does not fall back to a remaining time of
    zero.  For entry 0 the start time is the reading made just before,
    so this is the case of two readings in a row that are equal. *)
Theorem print_progress_zero_elapsed_raises entry w :
  print_frequency (self w) <> 0 ->
  entry mod print_frequency (self w) = 0 ->
  (if entry =? 0 then clock (S (ticks w)) = clock (ticks w)
   else clock (ticks w) = start_time (self w)) ->
  _print_progress clock entry w = Raise ZeroDivisionError.
Proof.
  intros Hf Hm Hdt.
  apply Z.eqb_neq in Hf. apply Z.eqb_eq in Hm.
  unfold _print_progress. cbn. unfold M_bind.
  destruct (entry =? 0); cbn.
  all: unfold lift, int_mod; cbn; rewrite Hf; cbn; rewrite Hm; cbn.
  all: rewrite Hdt, Z.sub_diag, total_seconds_0, float_truediv_0.
  all: reflexivity.
Qed.

End Progress.

  (** The first record of a run whose clock does not advance. *)
Lemma print_progress_zero_elapsed_raises_witness :
  _print_progress stalled_clock 0
    (mk_world [] (mk_attributes 10 100 0 0) 0 [])
  = Raise ZeroDivisionError.
Proof.
  apply print_progress_zero_elapsed_raises; cbn; [discriminate | reflexivity..].
Defined.

(* ===================================================================== *)
(** ** The loop: one record at a time *)
(* ===================================================================== *)

#[local] Arguments _run_loop : simpl never.
#[local] Arguments _print_progress : simpl never.
#[local] Arguments for_entries : simpl never.

Section Records.

Variable clock : nat -> Z.

Implicit Types (u : hooks) (w : world) (entry : Z) (rest : list Z).

Lemma for_entries_cons u entry rest :
  for_entries clock u (entry :: rest) =
  (evs_clear ;;
   r <- _run_loop clock u entry ;;
   if stt.eqb r stt.QuitLoop then ret tt else for_entries clock u rest).
Proof. reflexivity. Qed.

Lemma run_loop_unfold u entry :
  _run_loop clock u entry =
  (current_entry' <- _print_progress clock entry ;;
   user_event_routine u current_entry').
Proof. reflexivity. Qed.

  (** The routine is called on the entry itself, in a world with the
      registry that [_run_loop] was given. *)
Lemma run_loop_routine u entry w :
  _run_loop clock u entry w =
  (_print_progress clock entry ;; user_event_routine u entry) w.
Proof.
  rewrite run_loop_unfold. apply M_bind_cong.
  intros a w' H. apply print_progress_returns in H. destruct H as [-> _].
  reflexivity.
Qed.

Lemma cleared_clear (d : dict) : cleared (clear d).
Proof.
  unfold cleared, clear. apply Forall_forall. intros kf H.
  apply in_map_iff in H. destruct H as ([k f] & <- & _). cbn. auto.
Qed.

  (** A record whose routine does not ask to quit is followed by the
      rest of the loop. *)
Lemma record_then_rest {X : Type} (K : M X) u entry rest w :
  (forall s r s', user_event_routine u entry s = Ok (r, s') ->
                  r <> stt.QuitLoop) ->
  (for_entries clock u (entry :: rest) ;; K) w =
  (evs_clear ;; _run_loop clock u entry ;; for_entries clock u rest ;; K) w.
Proof.
  intros Hnq. rewrite for_entries_cons. cbn. unfold M_bind. cbn.
  destruct (_run_loop clock u entry _) as [[r s'] | e |] eqn:E;
    try reflexivity.
  assert (Hr : r <> stt.QuitLoop).
  { rewrite run_loop_routine in E. cbn in E. unfold M_bind in E.
    destruct (_print_progress clock entry _) as [[a s0] | |];
      try discriminate.
    exact (Hnq _ _ _ E). }
  destruct r; try reflexivity. contradiction.
Qed.

  (** A record whose routine returns through [quit_loop] ends the
      loop: the flags are accumulated, the progress of the last entry is
      printed, and the rest of the entries is left out. *)
Lemma record_quit {X : Type} (K : M X) u (body : M unit) entry rest w :
  (forall s, user_event_routine u entry s = (body ;; quit_loop clock) s) ->
  (for_entries clock u (entry :: rest) ;; K) w =
  (evs_clear ;; _print_progress clock entry ;; body ;;
   evs_accumulate ;;
   a <- read_self ;; _print_progress clock (nentries a - 1) ;;
   K) w.
Proof.
  intros Hq. rewrite for_entries_cons. cbn. unfold M_bind. cbn.
  rewrite run_loop_routine. cbn. unfold M_bind.
  destruct (_print_progress clock entry _) as [[a s0] | e |];
    try reflexivity.
  rewrite Hq. unfold quit_loop. cbn. unfold M_bind. cbn.
  destruct (body s0) as [[[] s1] | e |]; try reflexivity. cbn.
  destruct (_print_progress clock _ _) as [[a' s2] | e |]; reflexivity.
Qed.

End Records.

(* ===================================================================== *)
(** ** Properties of the loop *)
(* ===================================================================== *)

Section Loop.

Variable clock : nat -> Z.

Implicit Types (u : hooks) (w : world) (entry : Z) (rest : list Z).

(** C1, amended: when the setup hook does not return [OKFunc],
    [run_analysis] returns [ErrFunc] at once, in the world the hook
    left: no record is processed and no report is printed.  When the
    teardown hook does not return [OKFunc], it returns [ErrFunc] in the
    world that hook left, again without the report.  The report of the
    flags is the last action of a run whose two hooks return [OKFunc],
    also when the loop was left through [QuitLoop]. *)
Theorem report_only_after_successful_hooks u w :
  (forall b w1,
     user_before_loop u w = Ok (b, w1) -> b <> stt.OKFunc ->
     run_analysis clock u w = Ok (Some stt.ErrFunc, w1))
  /\ (forall w1 w2 e w3,
        user_before_loop u w = Ok (stt.OKFunc, w1) ->
        for_entries clock u (range (nentries (self w1))) w1 = Ok (tt, w2) ->
        user_after_loop u w2 = Ok (e, w3) ->
        (e <> stt.OKFunc ->
         run_analysis clock u w = Ok (Some stt.ErrFunc, w3))
        /\ (e = stt.OKFunc ->
            run_analysis clock u w =
            Ok (None, mk_world (evs w3) (self w3) (ticks w3)
                        (stdout w3 ++ output (evs w3))%list))).
Proof.
  split.
  - intros b w1 Hb Hne. unfold run_analysis.
    rewrite (M_bind_Ok _ _ _ _ _ Hb).
    destruct b; try reflexivity. contradiction.
  - intros w1 w2 e w3 Hb Hloop Ha. unfold run_analysis.
    rewrite (M_bind_Ok _ _ _ _ _ Hb). cbn. unfold M_bind. cbn.
    rewrite Hloop, Ha.
    split; intros He; [destruct e; try reflexivity; contradiction |].
    subst e. reflexivity.
Qed.

(** C5: with ten records, a routine that returns through [quit_loop]
    at entry 2 (and does not ask to quit at entries 0 and 1) makes the
    run process the entries 0, 1 and 2 and no other: each is cleared
    for and run; at entry 2 the flags are accumulated, the progress of
    the last entry [nentries - 1] is printed and the loop is left; the
    teardown hook and the report follow on the flags of these three
    records. *)
Theorem quit_at_third_record u (body : M unit) w w1 :
  user_before_loop u w = Ok (stt.OKFunc, w1) ->
  nentries (self w1) = 10 ->
  (forall s r s', user_event_routine u 0 s = Ok (r, s') -> r <> stt.QuitLoop) ->
  (forall s r s', user_event_routine u 1 s = Ok (r, s') -> r <> stt.QuitLoop) ->
  (forall s, user_event_routine u 2 s = (body ;; quit_loop clock) s) ->
  run_analysis clock u w =
  (evs_clear ;; _run_loop clock u 0 ;;
   evs_clear ;; _run_loop clock u 1 ;;
   evs_clear ;; _print_progress clock 2 ;; body ;;
   evs_accumulate ;;
   a <- read_self ;; _print_progress clock (nentries a - 1) ;;
   e <- user_after_loop u ;;
   if negb (stt.eqb e stt.OKFunc) then ret (Some stt.ErrFunc)
   else evs_output ;; ret None) w1.
Proof.
  intros Hb Hn H0 H1 H2. unfold run_analysis.
  rewrite (M_bind_Ok _ _ _ _ _ Hb).
  change (negb (stt.eqb stt.OKFunc stt.OKFunc)) with false. cbv iota.
  rewrite (M_bind_Ok read_self _ w1 (self w1) w1 eq_refl), Hn.
  change (range 10) with [0; 1; 2; 3; 4; 5; 6; 7; 8; 9].
  rewrite (record_then_rest clock _ u 0 _ w1 H0).
  apply M_bind_cong. intros _ w2 _. apply M_bind_cong. intros _ w3 _.
  rewrite (record_then_rest clock _ u 1 _ w3 H1).
  apply M_bind_cong. intros _ w4 _. apply M_bind_cong. intros _ w5 _.
  rewrite (record_quit clock _ u body 2 _ w5 H2).
  reflexivity.
Qed.

  (** The routine of each record starts on a cleared registry. *)
Lemma for_entries_cleared_ext u u' :
  (forall i s, cleared (evs s) ->
               user_event_routine u i s = user_event_routine u' i s) ->
  forall entries w,
    for_entries clock u entries w = for_entries clock u' entries w.
Proof.
  intros Hagree entries.
  induction entries as [| entry rest IH]; intros w; [reflexivity |].
  rewrite !for_entries_cons. apply M_bind_cong. intros [] w' Hc.
  assert (Hw' : cleared (evs w')).
  { unfold evs_clear, evs_update in Hc.
    apply (f_equal (fun r => match r with
                             | Ok (_, x) => evs x
                             | _ => []
                             end)) in Hc.
    cbn in Hc. rewrite <- Hc. apply cleared_clear. }
  assert (Hrl : _run_loop clock u entry w' = _run_loop clock u' entry w').
  { rewrite !run_loop_unfold. apply M_bind_cong. intros a s Hp.
    apply print_progress_returns in Hp. destruct Hp as [_ Hs].
    apply Hagree. rewrite Hs. exact Hw'. }
  cbn. unfold M_bind. rewrite Hrl.
  destruct (_run_loop clock u' entry w') as [[r s] | e |]; try reflexivity.
  destruct (stt.eqb r stt.QuitLoop); [reflexivity | apply IH].
Qed.

  (** A record whose routine returns through [ok_event] or
      [skip_event]: the flags are accumulated when the body of the
      routine is over, and the loop goes on. *)
Lemma record_accumulated u (body : M unit) (st : stt.t) entry rest w :
  st <> stt.QuitLoop ->
  (forall s, user_event_routine u entry s
             = (body ;; evs_accumulate ;; ret st) s) ->
  for_entries clock u (entry :: rest) w =
  (evs_clear ;; _print_progress clock entry ;; body ;;
   evs_accumulate ;; for_entries clock u rest) w.
Proof.
  intros Hst Hr. rewrite for_entries_cons. cbn. unfold M_bind. cbn.
  rewrite run_loop_routine. cbn. unfold M_bind.
  destruct (_print_progress clock entry _) as [[a s0] | e |];
    try reflexivity.
  rewrite Hr. cbn. unfold M_bind. cbn.
  destruct (body s0) as [[[] s1] | e |]; try reflexivity. cbn.
  destruct st; try reflexivity. contradiction.
Qed.

(** C8, amended: for every record the loop clears the flags before it
    calls the routine, so a routine only ever starts on flags whose
    current value is 0 and that are not set: two routines that agree on
    such registries give the same run.  The loop itself does not
    accumulate: [accumulate] is run by [ok_event], [skip_event] and
    [quit_loop], so for a routine that returns through one of them it
    comes after the body of the routine and before the next record (or,
    for [quit_loop], before the last progress line and the end of the
    loop). *)
Theorem clear_before_routine_accumulate_by_helper :
  (forall u u',
     (forall i s, cleared (evs s) ->
                  user_event_routine u i s = user_event_routine u' i s) ->
     forall entries w,
       for_entries clock u entries w = for_entries clock u' entries w)
  /\ (forall d, cleared (clear d))
  /\ (forall u (body : M unit) (helper : M stt.t) entry rest w,
        helper = ok_event \/ helper = skip_event ->
        (forall s, user_event_routine u entry s = (body ;; helper) s) ->
        for_entries clock u (entry :: rest) w =
        (evs_clear ;; _print_progress clock entry ;; body ;;
         evs_accumulate ;; for_entries clock u rest) w)
  /\ (forall u (body : M unit) entry rest w,
        (forall s, user_event_routine u entry s
                   = (body ;; quit_loop clock) s) ->
        for_entries clock u (entry :: rest) w =
        (evs_clear ;; _print_progress clock entry ;; body ;;
         evs_accumulate ;;
         a <- read_self ;; _print_progress clock (nentries a - 1) ;;
         ret tt) w).
Proof.
  split; [exact for_entries_cleared_ext |].
  split; [exact cleared_clear |].
  split.
  - intros u body helper entry rest w [-> | ->] Hr.
    + apply (record_accumulated u body stt.OKEvent); [discriminate | exact Hr].
    + apply (record_accumulated u body stt.SkipEvent); [discriminate | exact Hr].
  - intros u body entry rest w Hq.
    pose proof (record_quit clock (ret tt) u body entry rest w Hq) as H.
    rewrite <- H. cbn. unfold M_bind.
    destruct (for_entries clock u (entry :: rest) w) as [[[] s] | e |];
      reflexivity.
Qed.

End Loop.

  (** On a cleared registry no flag is set. *)
Lemma cleared_none_set (d : dict) :
  cleared d -> existsb (fun kf => __isset (snd kf)) d = false.
Proof.
  induction 1 as [| kf rest [_ Hs] _ IH]; [reflexivity |].
  cbn. rewrite Hs, IH. reflexivity.
Qed.

  (** Three runs on ten records with a routine that quits at entry 2: a
      failing setup hook, a failing teardown hook, and no failure. *)
Lemma report_only_after_successful_hooks_witness :
  run_analysis steady_clock
    (mk_hooks error_before_loop (quit_at_2 steady_clock) ok_after_loop)
    ten_records
  = Ok (Some stt.ErrFunc, ten_records)
  /\ (exists w',
        run_analysis steady_clock
          (mk_hooks ok_before_loop (quit_at_2 steady_clock) error_after_loop)
          ten_records
        = Ok (Some stt.ErrFunc, w')
        /\ stdout w' = [progress_line 0 10 0%float 0%float; blank_line]
        /\ integral (evs w') "seen" = Ok (Some 3%float))
  /\ (exists w',
        run_analysis steady_clock
          (mk_hooks ok_before_loop (quit_at_2 steady_clock) ok_after_loop)
          ten_records
        = Ok (None, w')
        /\ stdout w'
           = [progress_line 0 10 0%float 0%float; blank_line;
              report_header 1; report_line 3%float "seen"; blank_line]).
Proof.
  split; [| split].
  - destruct (report_only_after_successful_hooks steady_clock
                (mk_hooks error_before_loop (quit_at_2 steady_clock)
                   ok_after_loop) ten_records) as [H _].
    apply (H stt.ErrFunc ten_records eq_refl). discriminate.
  - destruct (report_only_after_successful_hooks steady_clock
                (mk_hooks ok_before_loop (quit_at_2 steady_clock)
                   error_after_loop) ten_records) as [_ H].
    eexists. split.
    + eapply (H ten_records _ stt.ErrFunc _ eq_refl).
      * vm_compute. reflexivity.
      * vm_compute. reflexivity.
      * discriminate.
    + split; vm_compute; reflexivity.
  - destruct (report_only_after_successful_hooks steady_clock
                (mk_hooks ok_before_loop (quit_at_2 steady_clock)
                   ok_after_loop) ten_records) as [_ H].
    eexists. split.
    + eapply (H ten_records _ stt.OKFunc _ eq_refl).
      * vm_compute. reflexivity.
      * vm_compute. reflexivity.
      * reflexivity.
    + vm_compute. reflexivity.
Defined.

(** C1, as stated, on a module of ten records: with a setup hook that
    reports failure, and with a teardown hook that reports failure, the
    run returns [ErrFunc] and what it has printed does not end with the
    report of the flags. *)
Lemma failed_hook_prints_no_report :
  ~ (exists w',
       run_analysis steady_clock
         (mk_hooks error_before_loop (quit_at_2 steady_clock) ok_after_loop)
         ten_records
       = Ok (Some stt.ErrFunc, w')
       /\ exists printed, stdout w' = (printed ++ output (evs w'))%list)
  /\ ~ (exists w',
          run_analysis steady_clock
            (mk_hooks ok_before_loop (quit_at_2 steady_clock)
               error_after_loop)
            ten_records
          = Ok (Some stt.ErrFunc, w')
          /\ exists printed, stdout w' = (printed ++ output (evs w'))%list).
Proof.
  split; intros (w' & E & printed & P).
  all: apply (f_equal (@List.length line)) in P; rewrite length_app in P.
  all: match type of E with
       | ?run = _ =>
           assert (E' : match run with
                        | Ok (_, x) =>
                            (List.length (stdout x),
                             List.length (output (evs x)))
                        | _ => (O, O)
                        end
                        = (List.length (stdout w'),
                           List.length (output (evs w'))))
             by (rewrite E; reflexivity)
       end.
  all: remember (List.length (stdout w')) as n1 eqn:Hn1.
  all: remember (List.length (output (evs w'))) as n2 eqn:Hn2.
  all: clear E Hn1 Hn2; vm_compute in E'; injection E' as E1 E2; lia.
Qed.

  (** Ten records, a routine that counts the records in ["seen"] and
      quits at entry 2: the report shows 3. *)
Lemma quit_at_third_record_witness :
  exists w',
    run_analysis steady_clock
      (mk_hooks ok_before_loop (quit_at_2 steady_clock) ok_after_loop)
      ten_records
    = Ok (None, w')
    /\ stdout w'
       = [progress_line 0 10 0%float 0%float; blank_line;
          report_header 1; report_line 3%float "seen"; blank_line]
    /\ integral (evs w') "seen" = Ok (Some 3%float).
Proof.
  assert (Hnq : forall i, (i =? 2) = false ->
            forall s r s', quit_at_2 steady_clock i s = Ok (r, s') ->
                           r <> stt.QuitLoop).
  { intros i Hi s r s' H. unfold quit_at_2 in H. rewrite Hi in H.
    cbn in H. unfold M_bind in H.
    destruct (count_body s) as [[[] s1] | e |]; try discriminate.
    cbn in H.
    apply (f_equal (fun x => match x with
                             | Ok (st, _) => st
                             | _ => stt.QuitLoop
                             end)) in H.
    cbn in H. subst r. discriminate. }
  rewrite (quit_at_third_record steady_clock
             (mk_hooks ok_before_loop (quit_at_2 steady_clock) ok_after_loop)
             count_body ten_records ten_records
             eq_refl eq_refl (Hnq 0 eq_refl) (Hnq 1 eq_refl)
             (fun s => eq_refl)).
  eexists. split; [vm_compute; reflexivity |].
  split; vm_compute; reflexivity.
Defined.

(** C8, as stated, on ten records whose routine sets the flag ["seen"]
    to 1 and returns [OKEvent] itself: were [accumulate] run after the
    routine of every record, the total of ["seen"] would be 10 at the
    end of the run. *)
Lemma bare_return_is_not_accumulated :
  ~ (exists w',
       run_analysis steady_clock
         (mk_hooks ok_before_loop bare_return ok_after_loop) ten_records
       = Ok (None, w')
       /\ integral (evs w') "seen" = Ok (Some 10%float)).
Proof.
  intros (w' & E & T).
  apply (f_equal (fun r => match r with
                           | Ok (_, x) =>
                               match integral (evs x) "seen" with
                               | Ok (Some t) => PrimFloat.eqb t 0%float
                               | _ => false
                               end
                           | _ => false
                           end)) in E.
  rewrite T in E. vm_compute in E. discriminate E.
Qed.

  (** The routine [quit_at_2] and the routine [wary], which differs from
      it on registries with a flag that is set, give the same loop; a
      record that ends in [ok_event] and one that ends in [quit_loop]. *)
Lemma clear_before_routine_accumulate_by_helper_witness :
  (forall entries w,
     for_entries steady_clock
       (mk_hooks ok_before_loop (quit_at_2 steady_clock) ok_after_loop)
       entries w
     = for_entries steady_clock
         (mk_hooks ok_before_loop (wary steady_clock) ok_after_loop)
         entries w)
  /\ for_entries steady_clock
       (mk_hooks ok_before_loop (quit_at_2 steady_clock) ok_after_loop)
       [0; 1] ten_records
     = (evs_clear ;; _print_progress steady_clock 0 ;; count_body ;;
        evs_accumulate ;;
        for_entries steady_clock
          (mk_hooks ok_before_loop (quit_at_2 steady_clock) ok_after_loop)
          [1]) ten_records
  /\ for_entries steady_clock
       (mk_hooks ok_before_loop (quit_at_2 steady_clock) ok_after_loop)
       [2; 3] ten_records
     = (evs_clear ;; _print_progress steady_clock 2 ;; count_body ;;
        evs_accumulate ;;
        a <- read_self ;; _print_progress steady_clock (nentries a - 1) ;;
        ret tt) ten_records.
Proof.
  destruct (clear_before_routine_accumulate_by_helper steady_clock)
    as (Hext & _ & Hhelper & Hquit).
  split; [| split].
  - apply Hext. intros i s Hs. cbn. unfold wary.
    rewrite (cleared_none_set _ Hs). reflexivity.
  - apply (Hhelper _ count_body ok_event); [left; reflexivity |].
    intros s. reflexivity.
  - apply (Hquit _ count_body). intros s. reflexivity.
Defined.

  (** Five records classified with [when]: the report shows one hit and
      four misses. *)
Example hit_or_miss_report :
  exists w',
    run_analysis steady_clock
      (mk_hooks ok_before_loop hit_or_miss ok_after_loop)
      (mk_world [] (mk_attributes 5 100 0 0) 0 [])
    = Ok (None, w')
    /\ stdout w'
       = [progress_line 0 5 0%float 0%float; blank_line;
          report_header 2; report_line 1%float "hit";
          report_line 4%float "miss"; blank_line].
Proof. eexists. split; vm_compute; reflexivity. Qed.

(* ===================================================================== *)
(** ** The registry: names, order and the per-record state *)
(* ===================================================================== *)

Section Names.

Implicit Types (d : dict) (key : string) (f : obj).

Lemma has_keys d key : has d key = true <-> In key (keys d).
Proof.
  unfold has, keys.
  induction d as [| [k g] rest IH]; cbn.
  - split; [discriminate | contradiction].
  - destruct (String.eqb k key) eqn:E.
    + apply String.eqb_eq in E. tauto.
    + apply String.eqb_neq in E. rewrite IH. tauto.
Qed.

Lemma keys_setattr d key upd d' :
  setattr d key upd = Ok d' -> keys d' = keys d.
Proof.
  revert d'. induction d as [| [k g] rest IH]; cbn; intros d'; [discriminate |].
  destruct (String.eqb k key).
  - intros [= <-]. reflexivity.
  - destruct (setattr rest key upd) as [r | e |]; cbn; try discriminate.
    intros [= <-]. cbn. f_equal. apply IH. reflexivity.
Qed.

Lemma carried_names_setattr d key upd d' :
  (forall f, __key (upd f) = __key f) ->
  setattr d key upd = Ok d' ->
  Forall (fun kf : string * obj => __key (snd kf) = fst kf) d ->
  Forall (fun kf : string * obj => __key (snd kf) = fst kf) d'.
Proof.
  intros Hupd. revert d'.
  induction d as [| [k g] rest IH]; cbn; intros d'; [discriminate |].
  destruct (String.eqb k key).
  - intros [= <-] H. inversion H as [| ? ? Hk Hrest]; subst.
    constructor; [cbn in *; rewrite Hupd; exact Hk | exact Hrest].
  - destruct (setattr rest key upd) as [r | e |]; cbn; try discriminate.
    intros [= <-] H. inversion H as [| ? ? Hk Hrest]; subst.
    constructor; [exact Hk | apply IH; [reflexivity | exact Hrest]].
Qed.

Lemma consistent_setattr d key upd d' :
  (forall f, __key (upd f) = __key f) ->
  setattr d key upd = Ok d' -> consistent d -> consistent d'.
Proof.
  intros Hupd E [Hnd Hk]. split.
  - rewrite (keys_setattr _ _ _ _ E). exact Hnd.
  - exact (carried_names_setattr _ _ _ _ Hupd E Hk).
Qed.

Lemma consistent_map d (g : obj -> obj) :
  (forall f, __key (g f) = __key f) ->
  consistent d ->
  consistent (List.map (fun kf : string * obj => (fst kf, g (snd kf))) d).
Proof.
  intros Hg [Hnd Hk]. split.
  - unfold keys in *. rewrite map_map. cbn. exact Hnd.
  - apply Forall_map. cbn.
    apply (Forall_impl _ (P := fun kf => __key (snd kf) = fst kf));
      [| exact Hk].
    intros kf H. rewrite Hg. exact H.
Qed.

Lemma accumulate_as_map d :
  accumulate d =
  List.map (fun kf : string * obj =>
              (fst kf, mk_obj (__key (snd kf)) 0%float false
                         (PrimFloat.add (__accum (snd kf)) (__count (snd kf)))))
           d.
Proof. unfold accumulate. apply map_ext. intros [k f]. reflexivity. Qed.

Lemma clear_as_map d :
  clear d =
  List.map (fun kf : string * obj =>
              (fst kf, mk_obj (__key (snd kf)) 0%float false (__accum (snd kf))))
           d.
Proof. unfold clear. apply map_ext. intros [k f]. reflexivity. Qed.

Lemma reset_as_map d :
  reset d =
  List.map (fun kf : string * obj =>
              (fst kf, mk_obj (__key (snd kf)) 0%float false 0%float)) d.
Proof. unfold reset. apply map_ext. intros [k f]. reflexivity. Qed.

Lemma consistent_define d key d' :
  define d key = Ok d' -> consistent d -> consistent d'.
Proof.
  intros E [Hnd Hk]. destruct (has d key) eqn:H.
  - rewrite (define_old _ _ H) in E. injection E as <-. split; assumption.
  - rewrite (define_new _ _ H) in E. injection E as <-. split.
    + unfold keys in *. rewrite map_app. cbn.
      apply NoDup_app; [exact Hnd | repeat constructor; auto |].
      intros k Hin [Ek | []]. subst k.
      apply (proj2 (has_keys d key)) in Hin. congruence.
    + apply Forall_app. split; [exact Hk | repeat constructor].
Qed.

Lemma consistent_set d key val r d' :
  set d key val = Ok (r, d') -> consistent d -> consistent d'.
Proof.
  unfold set. destruct (has d key); cbn.
  - destruct (setattr d key (with_count val)) as [d1 | e |] eqn:E1;
      cbn; try discriminate.
    destruct (setattr d1 key (with_isset true)) as [d2 | e |] eqn:E2;
      cbn; try discriminate.
    intros [= <- <-] H.
    refine (consistent_setattr d1 key (with_isset true) d2 _ E2 _);
      [reflexivity |].
    refine (consistent_setattr d key _ d1 _ E1 H). reflexivity.
  - intros [= <- <-] H. exact H.
Qed.

Lemma consistent_add d key val r d' :
  add d key val = Ok (r, d') -> consistent d -> consistent d'.
Proof.
  unfold add. destruct (has d key); cbn.
  - destruct (setattr d key _) as [d1 | e |] eqn:E1; cbn; try discriminate.
    destruct (setattr d1 key (with_isset true)) as [d2 | e |] eqn:E2;
      cbn; try discriminate.
    intros [= <- <-] H.
    refine (consistent_setattr d1 key (with_isset true) d2 _ E2 _);
      [reflexivity |].
    refine (consistent_setattr d key _ d1 _ E1 H). reflexivity.
  - intros [= <- <-] H. exact H.
Qed.

Lemma consistent_define_missing d flag d' :
  define_missing d flag = Ok d' -> consistent d -> consistent d'.
Proof.
  unfold define_missing. destruct flag as [k |].
  - destruct (Bool.eqb (has d k) false).
    + apply consistent_define.
    + intros [= <-]. trivial.
  - intros [= <-]. trivial.
Qed.

Lemma consistent_when d (condition : bool) (a b : option string) r d' :
  when d condition a b = Ok (r, d') -> consistent d -> consistent d'.
Proof.
  unfold when.
  destruct (define_missing d a) as [d1 | e |] eqn:E1; cbn; try discriminate.
  destruct (define_missing d1 b) as [d2 | e |] eqn:E2; cbn; try discriminate.
  intros E H.
  apply (consistent_define_missing _ _ _ E1) in H.
  apply (consistent_define_missing _ _ _ E2) in H.
  assert (Hset : forall flag x d3,
             set_opt d2 flag 1%float = Ok (x, d3) -> consistent d3).
  { intros [k |] x d3; cbn.
    - intros Es. exact (consistent_set _ _ _ _ _ Es H).
    - intros [= <- <-]. exact H. }
  destruct (Bool.eqb condition true).
  - destruct (set_opt d2 a 1%float) as [[x d3] | e |] eqn:Es;
      cbn in E; try discriminate.
    injection E as <- <-. exact (Hset _ _ _ Es).
  - destruct (set_opt d2 b 1%float) as [[x d3] | e |] eqn:Es;
      cbn in E; try discriminate.
    injection E as <- <-. exact (Hset _ _ _ Es).
Qed.

(** X1: the registry keeps its shape.  An empty registry is
    consistent (every name bound once, to an object that carries the
    name), and [define], [set], [add], [when], [accumulate], [clear] and
    [reset] all lead from a consistent registry to a consistent one. *)
Theorem registry_stays_consistent d :
  consistent d ->
  (forall key d', define d key = Ok d' -> consistent d')
  /\ (forall key val r d', set d key val = Ok (r, d') -> consistent d')
  /\ (forall key val r d', add d key val = Ok (r, d') -> consistent d')
  /\ (forall condition a b r d',
        when d condition a b = Ok (r, d') -> consistent d')
  /\ consistent (accumulate d)
  /\ consistent (clear d)
  /\ consistent (reset d).
Proof.
  intros H.
  split; [intros key d' E; exact (consistent_define _ _ _ E H) |].
  split; [intros key val r d' E; exact (consistent_set _ _ _ _ _ E H) |].
  split; [intros key val r d' E; exact (consistent_add _ _ _ _ _ E H) |].
  split; [intros c a b r d' E; exact (consistent_when _ _ _ _ _ _ E H) |].
  split.
  { rewrite accumulate_as_map.
    apply (consistent_map d
             (fun f => mk_obj (__key f) 0%float false
                         (PrimFloat.add (__accum f) (__count f))));
      trivial. }
  split.
  { rewrite clear_as_map.
    apply (consistent_map d
             (fun f => mk_obj (__key f) 0%float false (__accum f)));
      trivial. }
  rewrite reset_as_map.
  apply (consistent_map d (fun f => mk_obj (__key f) 0%float false 0%float));
    trivial.
Qed.

End Names.

Section PerRecord.

Implicit Types (d : dict) (key : string) (f : obj).

Lemma lookup_reset d key :
  lookup (reset d) key =
  option_map (fun f => mk_obj (__key f) 0%float false 0%float) (lookup d key).
Proof.
  unfold lookup, reset.
  induction d as [| [k g] rest IH]; cbn; [reflexivity |].
  destruct (String.eqb k key); [reflexivity | exact IH].
Qed.

Lemma keys_clear d : keys (clear d) = keys d.
Proof. rewrite clear_as_map. unfold keys. rewrite map_map. reflexivity. Qed.

Lemma keys_accumulate d : keys (accumulate d) = keys d.
Proof. rewrite accumulate_as_map. unfold keys. rewrite map_map. reflexivity. Qed.

Lemma keys_reset d : keys (reset d) = keys d.
Proof. rewrite reset_as_map. unfold keys. rewrite map_map. reflexivity. Qed.

(** X2: [clear] puts every flag back to the state of the beginning of
    a record (current value 0, not set) and touches nothing else: the
    names, their order and the totals stay.  Clearing twice, or clearing
    right after [accumulate], changes nothing more. *)
Theorem clear_resets_record_state d :
  cleared (clear d)
  /\ keys (clear d) = keys d
  /\ (forall key,
        has (clear d) key = has d key
        /\ integral (clear d) key = integral d key
        /\ get (clear d) key
           = (if has d key then Ok (Some 0%float) else Ok None)
        /\ is_set (clear d) key = Ok false)
  /\ clear (clear d) = clear d
  /\ clear (accumulate d) = accumulate d.
Proof.
  split; [apply cleared_clear |]. split; [apply keys_clear |].
  split; [| split].
  - intros key.
    rewrite !has_lookup, !integral_lookup, get_lookup, is_set_lookup,
      lookup_clear.
    destruct (lookup d key); cbn; auto.
  - unfold clear. rewrite map_map. apply map_ext. intros [k f]. reflexivity.
  - unfold clear, accumulate. rewrite map_map. apply map_ext.
    intros [k f]. reflexivity.
Qed.

(** X3: [reset] zeroes the current value, the set mark and the total of
    every flag and keeps the flags themselves: the same names in the
    same order, so [ndef] does not change. *)
Theorem reset_zeroes_and_keeps_names d :
  keys (reset d) = keys d
  /\ ndef (reset d) = ndef d
  /\ (forall key,
        has (reset d) key = has d key
        /\ get (reset d) key
           = (if has d key then Ok (Some 0%float) else Ok None)
        /\ integral (reset d) key
           = (if has d key then Ok (Some 0%float) else Ok None)
        /\ is_set (reset d) key = Ok false)
  /\ reset (reset d) = reset d.
Proof.
  split; [apply keys_reset |]. split; [| split].
  - unfold ndef, reset. rewrite length_map. reflexivity.
  - intros key.
    rewrite !has_lookup, integral_lookup, get_lookup, is_set_lookup,
      lookup_reset.
    destruct (lookup d key); cbn; auto.
  - unfold reset. rewrite map_map. apply map_ext. intros [k f]. reflexivity.
Qed.

(** X4: [define] never fails and registers a name once.  After the call
    the name is known; a name that was known leaves the registry as it
    was, a new one is appended with current value 0, not set and total
    0, so [ndef] grows by one; the other flags are not touched, and a
    second [define] of the name changes nothing. *)
Theorem define_registers_once d key :
  exists d',
    define d key = Ok d'
    /\ has d' key = true
    /\ d' = (if has d key then d else d ++ [(key, fresh key)])%list
    /\ ndef d' = (if has d key then ndef d else ndef d + 1)
    /\ (forall key',
          lookup d' key' =
          match lookup d key' with
          | Some g => Some g
          | None => if String.eqb key key' then Some (fresh key) else None
          end)
    /\ define d' key = Ok d'.
Proof.
  destruct (has d key) eqn:H.
  - exists d. rewrite (define_old _ _ H).
    repeat split; try assumption.
    intros key'. destruct (lookup d key') eqn:L; [reflexivity |].
    destruct (String.eqb key key') eqn:E; [| reflexivity].
    apply String.eqb_eq in E. subst key'.
    apply has_true_lookup in H. destruct H as [g H]. congruence.
  - exists (d ++ [(key, fresh key)])%list. rewrite (define_new _ _ H).
    assert (Hh : has (d ++ [(key, fresh key)])%list key = true).
    { rewrite has_lookup, lookup_app, (has_false_lookup _ _ H),
        String.eqb_refl. reflexivity. }
    repeat split.
    + exact Hh.
    + unfold ndef. rewrite length_app. cbn. lia.
    + intros key'. apply lookup_app.
    + apply define_old. exact Hh.
Qed.

Lemma flag_lines_setattr d key upd d' :
  (forall f, __key (upd f) = __key f) ->
  (forall f, __accum (upd f) = __accum f) ->
  setattr d key upd = Ok d' -> flag_lines d' = flag_lines d.
Proof.
  intros Hk Ha. revert d'.
  induction d as [| [k g] rest IH]; cbn; intros d'; [discriminate |].
  destruct (String.eqb k key).
  - intros [= <-]. cbn. rewrite Hk, Ha. reflexivity.
  - destruct (setattr rest key upd) as [r | e |]; cbn; try discriminate.
    intros [= <-]. cbn. f_equal. apply IH. reflexivity.
Qed.

(** X5: what [set] does, for every name.  On an unknown name it returns
    [False] and changes nothing; on a known name it returns [None],
    gives the flag the value and the set mark, and leaves its total,
    the other flags, the names and their order as they were, so the
    report is the same before and after. *)
Theorem set_changes_one_current_value d key (val : float) :
  exists d',
    set d key val = Ok (if has d key then None else Some false, d')
    /\ keys d' = keys d
    /\ (forall key',
          lookup d' key' =
          if String.eqb key key'
          then option_map (fun f => mk_obj (__key f) val true (__accum f))
                          (lookup d key')
          else lookup d key')
    /\ output d' = output d.
Proof.
  destruct (has d key) eqn:H.
  - unfold set. rewrite H. cbn.
    destruct (has_true_lookup _ _ H) as [f L].
    destruct (setattr_lookup d key (with_count val) f L) as (d1 & E1 & H1).
    rewrite E1. cbn. pose proof (H1 key) as L1.
    rewrite String.eqb_refl in L1.
    destruct (setattr_lookup d1 key (with_isset true) _ L1) as (d2 & E2 & H2).
    rewrite E2. cbn. exists d2. split; [reflexivity |]. split; [| split].
    + rewrite (keys_setattr _ _ _ _ E2). exact (keys_setattr _ _ _ _ E1).
    + intros key'. rewrite H2, H1.
      destruct (String.eqb key key') eqn:E; [| reflexivity].
      apply String.eqb_eq in E. subst key'. rewrite L. reflexivity.
    + unfold output, ndef.
      change (List.map _ d2) with (flag_lines d2).
      change (List.map _ d) with (flag_lines d).
      rewrite (flag_lines_setattr d1 key (with_isset true) d2) by
        (trivial || reflexivity).
      rewrite (flag_lines_setattr d key (with_count val) d1) by
        (trivial || reflexivity).
      pose proof (keys_setattr _ _ _ _ E1) as K1.
      pose proof (keys_setattr _ _ _ _ E2) as K2.
      apply (f_equal (@List.length string)) in K1, K2.
      unfold keys in K1, K2. rewrite !length_map in K1, K2.
      rewrite K2, K1. reflexivity.
  - exists d. rewrite (set_undefined _ _ _ H).
    split; [reflexivity |]. split; [reflexivity |]. split; [| reflexivity].
    intros key'. destruct (String.eqb key key') eqn:E; [| reflexivity].
    apply String.eqb_eq in E. subst key'.
    rewrite (has_false_lookup _ _ H). reflexivity.
Qed.

(** X6: what [add] does, for every name.  On an unknown name it returns
    [False] and changes nothing; on a known name it returns [None],
    adds the value to the current value of the flag and marks it set,
    and leaves its total, the other flags, the names and their order as
    they were. *)
Theorem add_changes_one_current_value d key (val : float) :
  exists d',
    add d key val = Ok (if has d key then None else Some false, d')
    /\ keys d' = keys d
    /\ (forall key',
          lookup d' key' =
          if String.eqb key key'
          then option_map
                 (fun f => mk_obj (__key f) (PrimFloat.add (__count f) val)
                             true (__accum f))
                 (lookup d key')
          else lookup d key')
    /\ output d' = output d.
Proof.
  destruct (has d key) eqn:H.
  - unfold add. rewrite H. cbn.
    destruct (has_true_lookup _ _ H) as [f L].
    destruct (setattr_lookup d key
                (fun g => with_count (PrimFloat.add (__count g) val) g) f L)
      as (d1 & E1 & H1).
    rewrite E1. cbn. pose proof (H1 key) as L1.
    rewrite String.eqb_refl in L1.
    destruct (setattr_lookup d1 key (with_isset true) _ L1) as (d2 & E2 & H2).
    rewrite E2. cbn. exists d2. split; [reflexivity |]. split; [| split].
    + rewrite (keys_setattr _ _ _ _ E2). exact (keys_setattr _ _ _ _ E1).
    + intros key'. rewrite H2, H1.
      destruct (String.eqb key key') eqn:E; [| reflexivity].
      apply String.eqb_eq in E. subst key'. rewrite L. reflexivity.
    + unfold output, ndef.
      change (List.map _ d2) with (flag_lines d2).
      change (List.map _ d) with (flag_lines d).
      rewrite (flag_lines_setattr d1 key (with_isset true) d2) by
        (trivial || reflexivity).
      rewrite (flag_lines_setattr d key
                 (fun g => with_count (PrimFloat.add (__count g) val) g) d1)
        by (trivial || reflexivity).
      pose proof (keys_setattr _ _ _ _ E1) as K1.
      pose proof (keys_setattr _ _ _ _ E2) as K2.
      apply (f_equal (@List.length string)) in K1, K2.
      unfold keys in K1, K2. rewrite !length_map in K1, K2.
      rewrite K2, K1. reflexivity.
  - exists d. rewrite (add_undefined _ _ _ H).
    split; [reflexivity |]. split; [reflexivity |]. split; [| reflexivity].
    intros key'. destruct (String.eqb key key') eqn:E; [| reflexivity].
    apply String.eqb_eq in E. subst key'.
    rewrite (has_false_lookup _ _ H). reflexivity.
Qed.

End PerRecord.

Section Queries.

Implicit Types (d : dict) (key : string) (f : obj).

(** X7: [any] and [all] never raise and reduce [is_set] over the list:
    [any] is true exactly when some listed flag is set in this record,
    [all] when every listed flag is, where the set mark of a name is the
    one of its flag and [False] when it has none; [any] of no name is
    [False] and [all] of no name is [True]. *)
Theorem any_all_reduce_is_set d (list_of_keys : list string) :
  any d list_of_keys = Ok (existsb (set_mark d) list_of_keys)
  /\ all d list_of_keys = Ok (forallb (set_mark d) list_of_keys)
  /\ (forall key, is_set d key = Ok (set_mark d key))
  /\ any d [] = Ok false
  /\ all d [] = Ok true.
Proof.
  assert (I : forall key, is_set d key = Ok (set_mark d key))
    by (intros key; apply is_set_lookup).
  split; [| split; [| split; [exact I | split; reflexivity]]].
  - induction list_of_keys as [| key rest IH]; [reflexivity |].
    cbn [any existsb]. rewrite I, bind_Ok.
    destruct (set_mark d key); [reflexivity | exact IH].
  - induction list_of_keys as [| key rest IH]; [reflexivity |].
    cbn [all forallb]. rewrite I, bind_Ok.
    destruct (set_mark d key); [exact IH | reflexivity].
Qed.

(** X8: [when] with a name left out.  With no name at all it returns
    the condition and changes nothing.  With [set_flag] alone and a
    false condition, or [otherwise_set_flag] alone and a true one, it
    still defines the name, as [define] does, and sets no flag. *)
Theorem when_with_a_name_left_out d (condition : bool) (name : string) :
  when d condition None None = Ok (condition, d)
  /\ exists d',
       define d name = Ok d'
       /\ when d false (Some name) None = Ok (false, d')
       /\ when d true None (Some name) = Ok (true, d').
Proof.
  split; [destruct condition; reflexivity |].
  destruct (has d name) eqn:H.
  - exists d. split; [apply define_old; exact H |].
    unfold when, define_missing.
    split; rewrite ?bind_Ok, H; reflexivity.
  - exists (d ++ [(name, fresh name)])%list.
    pose proof (define_new _ _ H) as E. split; [exact E |].
    unfold when, define_missing.
    split; rewrite ?bind_Ok, H; cbn [Bool.eqb]; rewrite E; reflexivity.
Qed.

(** X9: the report.  [output] prints the header, one line for each
    flag and an empty line.  The lines follow the order of definition:
    defining a new name adds its line, with total 0, after the others,
    and defining a known name adds none.  [clear] does not change the
    report, and after [accumulate] each line shows the total plus the
    current value the flag had. *)
Theorem report_follows_definition_order d key :
  List.length (output d) = S (S (List.length d))
  /\ output d = (report_header (ndef d) :: flag_lines d ++ [blank_line])%list
  /\ (exists d',
        define d key = Ok d'
        /\ flag_lines d' =
           (flag_lines d
              ++ (if has d key then [] else [report_line 0%float key]))%list)
  /\ output (clear d) = output d
  /\ flag_lines (accumulate d) =
     List.map (fun kf : string * obj =>
                 report_line
                   (PrimFloat.add (__accum (snd kf)) (__count (snd kf)))
                   (__key (snd kf))) d.
Proof.
  split; [| split; [reflexivity | split; [| split]]].
  - unfold output. cbn. rewrite length_app, length_map. cbn. lia.
  - destruct (has d key) eqn:H.
    + exists d. rewrite (define_old _ _ H), app_nil_r. split; reflexivity.
    + exists (d ++ [(key, fresh key)])%list. rewrite (define_new _ _ H).
      split; [reflexivity |]. unfold flag_lines. rewrite map_app.
      reflexivity.
  - unfold output, ndef, clear. rewrite length_map, map_map.
    f_equal. f_equal. apply map_ext. intros [k f]. reflexivity.
  - unfold flag_lines, accumulate. rewrite map_map. apply map_ext.
    intros [k f]. reflexivity.
Qed.

End Queries.

(* ===================================================================== *)
(** ** The loop: progress lines and the order of the entries *)
(* ===================================================================== *)

Section Entries.

Variable clock : nat -> Z.

Implicit Types (u : hooks) (w : world) (entry : Z) (rest : list Z).

(** X10: a module with no record.  When [nentries] is zero or negative
    after the setup hook (as it is when no tree was loaded: the default
    is -1), the loop has no round: the run goes from the setup hook to
    the teardown hook and the report, without a reading of the clock, a
    progress line or a call of the routine. *)
Theorem no_record_no_round u w w1 :
  user_before_loop u w = Ok (stt.OKFunc, w1) ->
  nentries (self w1) <= 0 ->
  run_analysis clock u w =
  (e <- user_after_loop u ;;
   if negb (stt.eqb e stt.OKFunc) then ret (Some stt.ErrFunc)
   else evs_output ;; ret None) w1.
Proof.
  intros Hb Hn. unfold run_analysis.
  rewrite (M_bind_Ok _ _ _ _ _ Hb).
  change (negb (stt.eqb stt.OKFunc stt.OKFunc)) with false. cbv iota.
  rewrite (M_bind_Ok read_self _ w1 (self w1) w1 eq_refl).
  assert (R : range (nentries (self w1)) = []).
  { unfold range. replace (Z.to_nat (nentries (self w1))) with O by lia.
    reflexivity. }
  rewrite R. reflexivity.
Qed.

(** X11: between two multiples of [print_frequency] the progress is
    silent and cannot fail: for an entry other than 0 that is not a
    multiple of a nonzero [print_frequency], [_print_progress] reads no
    clock and prints nothing, except the empty line that ends the
    progress line when the entry is the last one. *)
Theorem progress_silent_between_multiples entry w :
  entry <> 0 ->
  print_frequency (self w) <> 0 ->
  entry mod print_frequency (self w) <> 0 ->
  _print_progress clock entry w =
  Ok (entry,
      if entry =? nentries (self w) - 1
      then mk_world (evs w) (self w) (ticks w) (stdout w ++ [blank_line])
      else w).
Proof.
  intros He Hf Hm.
  apply Z.eqb_neq in He. apply Z.eqb_neq in Hf. apply Z.eqb_neq in Hm.
  unfold _print_progress. cbn. unfold M_bind. rewrite He. cbn.
  unfold lift, int_mod. rewrite Hf. cbn. rewrite Hm. cbn.
  destruct (entry =? nentries (self w) - 1); [reflexivity |].
  destruct w. reflexivity.
Qed.

(** X12: a [print_frequency] of 0 makes the progress fail at every
    entry with [ZeroDivisionError] (the modulo), so a loop with an entry
    to process stops at its first record with that error, whatever the
    routine is. *)
Theorem zero_print_frequency_raises u entry rest w :
  print_frequency (self w) = 0 ->
  _print_progress clock entry w = Raise ZeroDivisionError
  /\ for_entries clock u (entry :: rest) w = Raise ZeroDivisionError.
Proof.
  intros Hf.
  assert (P : forall w0, print_frequency (self w0) = 0 ->
                _print_progress clock entry w0 = Raise ZeroDivisionError).
  { intros w0 H0. unfold _print_progress. cbn. unfold M_bind.
    destruct (entry =? 0); cbn; unfold lift, int_mod; rewrite H0;
      reflexivity. }
  split; [exact (P w Hf) |].
  rewrite for_entries_cons. cbn. unfold M_bind. cbn.
  rewrite run_loop_unfold. cbn. unfold M_bind.
  rewrite P by exact Hf. reflexivity.
Qed.

(** X13: what [_print_progress] keeps.  When it returns, it returns the
    entry it was given and has left the registry, [nentries] and
    [print_frequency] as they were; it has printed at most two lines
    after the ones that were there and read the clock at most twice. *)
Theorem print_progress_keeps entry w r w' :
  _print_progress clock entry w = Ok (r, w') ->
  r = entry
  /\ evs w' = evs w
  /\ nentries (self w') = nentries (self w)
  /\ print_frequency (self w') = print_frequency (self w)
  /\ (exists printed,
        stdout w' = (stdout w ++ printed)%list
        /\ (List.length printed <= 2)%nat)
  /\ (ticks w <= ticks w' <= ticks w + 2)%nat.
Proof.
  unfold _print_progress. cbn. unfold M_bind.
  destruct (entry =? 0); cbn.
  all: unfold lift, int_mod; cbn.
  all: destruct (print_frequency (self w) =? 0); cbn; try discriminate.
  all: destruct (entry mod print_frequency (self w) =? 0); cbn.
  all: repeat match goal with
       | |- context [float_truediv ?a ?b] =>
           destruct (float_truediv a b); cbn; try discriminate
       | |- context [int_truediv ?a ?b] =>
           destruct (int_truediv a b); cbn; try discriminate
       | |- context [if ?b then _ else _] => destruct b; cbn; try discriminate
       end.
  all: intros [= <- <-]; cbn.
  all: repeat split; try lia.
  all: try (eexists; split;
            [rewrite <- ?app_assoc; reflexivity | cbn; lia]).
  all: exists []; rewrite app_nil_r; split; [reflexivity | cbn; lia].
Qed.

(** X14: [skip_event] and [ok_event] mean the same to the loop.  Two
    modules whose routines run the same body and return, one through
    [ok_event] and one through [skip_event], give the same loop on
    every list of entries: the same flags, the same output. *)
Theorem skip_event_as_ok_event u u' (body : Z -> M unit) :
  (forall i s, user_event_routine u i s = (body i ;; ok_event) s) ->
  (forall i s, user_event_routine u' i s = (body i ;; skip_event) s) ->
  forall entries w,
    for_entries clock u entries w = for_entries clock u' entries w.
Proof.
  intros Hok Hskip entries.
  induction entries as [| entry rest IH]; intros w; [reflexivity |].
  rewrite !for_entries_cons. cbn. unfold M_bind. cbn.
  rewrite !run_loop_routine. cbn. unfold M_bind.
  destruct (_print_progress clock entry _) as [[a s0] | e |];
    try reflexivity.
  rewrite Hok, Hskip. cbn. unfold M_bind.
  destruct (body entry s0) as [[[] s1] | e |]; try reflexivity.
  cbn. apply IH.
Qed.

(** X15: without a request to quit every entry is processed, in order:
    when the routine never returns [QuitLoop] on the entries of a first
    list, the loop over that list followed by a second one is the loop
    over the first and then the loop over the second. *)
Theorem entries_processed_in_order u (first second : list Z) :
  (forall i, In i first ->
     forall s r s', user_event_routine u i s = Ok (r, s') ->
                    r <> stt.QuitLoop) ->
  forall w,
    for_entries clock u (first ++ second) w =
    (for_entries clock u first ;; for_entries clock u second) w.
Proof.
  induction first as [| entry rest IH]; intros Hnq w.
  - cbn. reflexivity.
  - change ((entry :: rest) ++ second)%list
      with (entry :: (rest ++ second))%list.
    rewrite (record_then_rest clock _ u entry rest w
               (Hnq entry (or_introl eq_refl))).
    rewrite for_entries_cons. cbn. unfold M_bind. cbn.
    destruct (_run_loop clock u entry _) as [[r s'] | e |] eqn:E;
      try reflexivity.
    assert (Hr : r <> stt.QuitLoop).
    { rewrite run_loop_routine in E. cbn in E. unfold M_bind in E.
      destruct (_print_progress clock entry _) as [[a s0] | |];
        try discriminate.
      exact (Hnq entry (or_introl eq_refl) _ _ _ E). }
    assert (Eq : stt.eqb r stt.QuitLoop = false)
      by (destruct r; try reflexivity; contradiction).
    rewrite Eq. apply IH. intros i Hi. apply Hnq. right. exact Hi.
Qed.

(** X16: the entries after a request to quit are never processed: when
    the routine always returns [QuitLoop] on an entry, the loop over a
    list that goes on after this entry is the loop over the list cut
    after it. *)
Theorem entries_after_quit_left_out u (before after : list Z) entry :
  (forall s r s', user_event_routine u entry s = Ok (r, s') ->
                  r = stt.QuitLoop) ->
  forall w,
    for_entries clock u (before ++ entry :: after) w =
    for_entries clock u (before ++ [entry]) w.
Proof.
  intros Hq. induction before as [| e rest IH]; intros w.
  - cbn [app]. rewrite !for_entries_cons. cbn. unfold M_bind. cbn.
    destruct (_run_loop clock u entry _) as [[r s'] | x |] eqn:E;
      try reflexivity.
    assert (Hr : r = stt.QuitLoop).
    { rewrite run_loop_routine in E. cbn in E. unfold M_bind in E.
      destruct (_print_progress clock entry _) as [[a s0] | |];
        try discriminate.
      exact (Hq _ _ _ E). }
    subst r. reflexivity.
  - change ((e :: rest) ++ entry :: after)%list
      with (e :: (rest ++ entry :: after))%list.
    change ((e :: rest) ++ [entry])%list with (e :: (rest ++ [entry]))%list.
    rewrite !for_entries_cons. cbn. unfold M_bind. cbn.
    destruct (_run_loop clock u e _) as [[r s'] | x |]; try reflexivity.
    destruct (stt.eqb r stt.QuitLoop); [reflexivity | apply IH].
Qed.

End Entries.

Section Helpers.

Variable clock : nat -> Z.

Implicit Types (u : hooks) (w : world) (entry : Z) (rest : list Z).

Lemma cleared_accumulate (d : dict) : cleared (accumulate d).
Proof.
  unfold cleared, accumulate. apply Forall_forall. intros kf H.
  apply in_map_iff in H. destruct H as ([k f] & <- & _). cbn. auto.
Qed.

Lemma quit_loop_returns w r w' :
  quit_loop clock w = Ok (r, w') ->
  r = stt.QuitLoop /\ evs w' = accumulate (evs w).
Proof.
  unfold quit_loop. cbn. unfold M_bind. cbn.
  destruct (_print_progress clock _ _) as [[a s] | e |] eqn:E;
    try discriminate.
  intros [= <- <-]. apply print_progress_returns in E.
  destruct E as [_ E]. split; [reflexivity | exact E].
Qed.

  (** A routine that returns through a helper leaves the flags cleared. *)
Lemma helper_leaves_cleared (body : M unit) (helper : M stt.t) w r w' :
  helper = ok_event \/ helper = skip_event \/ helper = quit_loop clock ->
  (body ;; helper) w = Ok (r, w') -> cleared (evs w').
Proof.
  intros Hh. cbn. unfold M_bind.
  destruct (body w) as [[[] s] | e |]; try discriminate.
  destruct Hh as [-> | [-> | ->]].
  - cbn. intros [= <- <-]. cbn. apply cleared_accumulate.
  - cbn. intros [= <- <-]. cbn. apply cleared_accumulate.
  - intros E. apply quit_loop_returns in E. destruct E as [_ ->].
    apply cleared_accumulate.
Qed.

(** X17: nothing is pending after the loop.  When the routine returns
    through [ok_event], [skip_event] or [quit_loop] at every entry, a
    loop over at least one entry that comes to its end leaves every
    flag with current value 0 and not set: what the records have set is
    in the totals when the teardown hook and the report run. *)
Theorem loop_leaves_flags_cleared u (body : Z -> M unit)
    (helper : Z -> M stt.t) :
  (forall i, helper i = ok_event \/ helper i = skip_event
             \/ helper i = quit_loop clock) ->
  (forall i s, user_event_routine u i s = (body i ;; helper i) s) ->
  forall entries w w',
    entries <> [] ->
    for_entries clock u entries w = Ok (tt, w') ->
    cleared (evs w').
Proof.
  intros Hh Hr entries.
  induction entries as [| entry rest IH]; intros w w' Hne; [contradiction |].
  rewrite for_entries_cons. cbn. unfold M_bind. cbn.
  rewrite run_loop_routine. cbn. unfold M_bind.
  destruct (_print_progress clock entry _) as [[a s0] | e |];
    try discriminate.
  rewrite Hr.
  destruct ((body entry ;; helper entry) s0) as [[r s1] | e |] eqn:E;
    try discriminate.
  pose proof (helper_leaves_cleared _ _ _ _ _ (Hh entry) E) as Hc.
  destruct (stt.eqb r stt.QuitLoop).
  - intros [= <-]. exact Hc.
  - destruct rest as [| entry' rest'].
    + intros [= <-]. exact Hc.
    + apply IH. discriminate.
Qed.

End Helpers.

(* ===================================================================== *)
(** ** The name of the output file *)
(* ===================================================================== *)

Section OutputFile.

Import OutputName.

Lemma string_app_assoc (a b c : string) :
  ((a ++ b) ++ c = a ++ (b ++ c))%string.
Proof. induction a as [| x a IH]; cbn; [reflexivity | rewrite IH; reflexivity]. Qed.

Lemma slice_from_app (a b : string) :
  slice_from (a ++ b) (String.length a) = b.
Proof. induction a as [| x a IH]; cbn; [reflexivity | exact IH]. Qed.

Lemma slice_to_app (a b : string) :
  slice_to (a ++ b) (String.length a) = a.
Proof.
  induction a as [| x a IH]; cbn; [reflexivity |].
  rewrite IH. reflexivity.
Qed.

Lemma slice_to_from (s : string) (i : nat) :
  (slice_to s i ++ slice_from s i)%string = s.
Proof.
  revert s. induction i as [| i IH]; intros s; [reflexivity |].
  destruct s as [| a rest]; cbn; [reflexivity |]. rewrite IH. reflexivity.
Qed.

Lemma rfind_from_last_index c s i last :
  rfind_from c s i last =
  match last_index c s with
  | Some j => i + Z.of_nat j
  | None => last
  end.
Proof.
  revert i last. induction s as [| a rest IH]; intros i last; cbn;
    [reflexivity |].
  rewrite IH. destruct (last_index c rest) as [j |]; [lia |].
  destruct (Ascii.eqb a c); [lia | reflexivity].
Qed.

Lemma rfind_last_index c s :
  rfind c s =
  match last_index c s with
  | Some j => Z.of_nat j
  | None => -1
  end.
Proof.
  unfold rfind. rewrite rfind_from_last_index.
  destruct (last_index c s); reflexivity.
Qed.

  (** The last occurrence splits the string. *)
Lemma last_index_split c s j :
  last_index c s = Some j ->
  exists pre post,
    s = (pre ++ String c post)%string
    /\ String.length pre = j /\ last_index c post = None.
Proof.
  revert j. induction s as [| a rest IH]; intros j; cbn; [discriminate |].
  destruct (last_index c rest) as [k |] eqn:L.
  - intros [= <-]. destruct (IH k eq_refl) as (pre & post & -> & Hl & Hn).
    exists (String a pre), post. cbn. rewrite Hl. auto.
  - destruct (Ascii.eqb a c) eqn:E; [| discriminate].
    intros [= <-]. apply Ascii.eqb_eq in E. subst a.
    exists EmptyString, rest. auto.
Qed.

Lemma last_index_app_found c (pre post : string) :
  last_index c post = None ->
  last_index c (pre ++ String c post) = Some (String.length pre).
Proof.
  intros Hn. induction pre as [| a pre IH]; cbn.
  - rewrite Hn, Ascii.eqb_refl. reflexivity.
  - rewrite IH. reflexivity.
Qed.

Lemma last_index_app_none c (a b : string) :
  last_index c a = None -> last_index c b = None ->
  last_index c (a ++ b) = None.
Proof.
  intros Ha Hb. induction a as [| x a IH]; cbn in *; [exact Hb |].
  destruct (last_index c a); [discriminate |].
  rewrite IH by reflexivity. exact Ha.
Qed.

Lemma last_index_prefix_none c (a b : string) :
  last_index c (a ++ b) = None -> last_index c a = None.
Proof.
  induction a as [| x a IH]; cbn; [reflexivity |].
  destruct (last_index c (a ++ b)); [discriminate |].
  intros H. rewrite IH by reflexivity. exact H.
Qed.

  (** After a directory and a ['/'], a name without ['/'] is the
      basename. *)
Lemma basename_after_sep (dir name : string) :
  last_index "/" name = None ->
  basename (dir ++ String "/" name) = name.
Proof.
  intros Hn. unfold basename.
  rewrite rfind_last_index, (last_index_app_found _ dir name Hn).
  replace (Z.to_nat (Z.of_nat (String.length dir) + 1))
    with (String.length (dir ++ "/")).
  - replace (dir ++ String "/" name)%string
      with ((dir ++ "/") ++ name)%string
      by (rewrite string_app_assoc; reflexivity).
    apply slice_from_app.
  - clear. induction dir as [| a dir IH]; cbn; [reflexivity |].
    rewrite IH. lia.
Qed.

Lemma basename_no_sep (p : string) : last_index "/" (basename p) = None.
Proof.
  unfold basename. rewrite rfind_last_index.
  destruct (last_index "/" p) as [j |] eqn:L.
  - destruct (last_index_split _ _ _ L) as (pre & post & -> & <- & Hn).
    replace (Z.to_nat (Z.of_nat (String.length pre) + 1))
      with (String.length (pre ++ "/")).
    + replace (pre ++ String "/" post)%string
        with ((pre ++ "/") ++ post)%string
        by (rewrite string_app_assoc; reflexivity).
      rewrite slice_from_app. exact Hn.
    + clear. induction pre as [| a pre IH]; cbn; [reflexivity |].
      rewrite IH. lia.
  - cbn. exact L.
Qed.

Lemma skip_leading_dots_cases rounds p fi di :
  skip_leading_dots rounds p fi di = (p, EmptyString)
  \/ skip_leading_dots rounds p fi di
     = (slice_to p (Z.to_nat di), slice_from p (Z.to_nat di)).
Proof.
  revert fi. induction rounds as [| n IH]; intros fi; cbn; [auto |].
  destruct (negb _); [auto | apply IH].
Qed.

  (** [splitext] cuts the path in two; the second part is empty or
      begins with the dot. *)
Lemma splitext_parts (p : string) :
  (fst (splitext p) ++ snd (splitext p))%string = p
  /\ (snd (splitext p) = EmptyString
      \/ exists t, snd (splitext p) = String "." t).
Proof.
  unfold splitext. rewrite !rfind_last_index.
  destruct (last_index "." p) as [j |] eqn:L.
  - destruct (_ >? _).
    + destruct (skip_leading_dots_cases
                  (Z.to_nat
                     (Z.of_nat j
                      - (match last_index "/" p with
                         | Some k => Z.of_nat k
                         | None => -1
                         end + 1)))
                  p
                  (match last_index "/" p with
                   | Some k => Z.of_nat k
                   | None => -1
                   end + 1)
                  (Z.of_nat j)) as [-> | ->]; cbn [fst snd].
      * split; [| left; reflexivity].
        clear. induction p as [| a p IH]; cbn; [reflexivity |].
        rewrite IH. reflexivity.
      * rewrite Nat2Z.id. split; [apply slice_to_from |]. right.
        destruct (last_index_split _ _ _ L) as (pre & post & -> & <- & _).
        rewrite slice_from_app. eauto.
    + cbn. split; [| left; reflexivity].
      clear. induction p as [| a p IH]; cbn; [reflexivity |].
      rewrite IH. reflexivity.
  - destruct (_ >? _) eqn:G.
    + rewrite Z.gtb_ltb in G. apply Z.ltb_lt in G.
      destruct (last_index "/" p); lia.
    + cbn. split; [| left; reflexivity].
      clear. induction p as [| a p IH]; cbn; [reflexivity |].
      rewrite IH. reflexivity.
Qed.

(** X18: the output file is never the input file.  Whatever the output
    directory and the name of the input file are, the name [__init__]
    gives to the output file, [outdir/<name>_out.root] with the name of
    [user_output_basename], differs from the name of the input file. *)
Theorem output_file_is_not_input_file (outdir input_file_name : string) :
  output_file_name outdir input_file_name <> input_file_name.
Proof.
  intros H.
  pose (b := basename input_file_name).
  pose proof (splitext_parts b) as [Hparts Hext].
  assert (Hname : last_index "/" (fst (splitext b)) = None).
  { apply (last_index_prefix_none _ _ (snd (splitext b))).
    rewrite Hparts. apply basename_no_sep. }
  assert (Hb : b = (fst (splitext b) ++ "_out.root")%string).
  { unfold b at 1. rewrite <- H. unfold output_file_name, user_output_basename.
    fold b. destruct (splitext b) as [name ext] eqn:S. cbn [fst] in *.
    replace ((outdir ++ "/" ++ name ++ "_out") ++ ".root")%string
      with (outdir ++ String "/" (name ++ "_out.root"))%string.
    - apply basename_after_sep. apply last_index_app_none;
        [exact Hname | reflexivity].
    - rewrite (string_app_assoc outdir). cbn.
      rewrite (string_app_assoc name). reflexivity. }
  rewrite <- Hparts in Hb at 1. apply append_cancel_l in Hb.
  destruct Hext as [E | [t E]]; rewrite E in Hb; discriminate Hb.
Qed.

Lemma skip_leading_dots_stem (done stem tail : string) (di : Z) :
  skip_leading_dots (String.length stem) (done ++ stem ++ tail)
    (Z.of_nat (String.length done)) di =
  if all_dots stem then ((done ++ stem ++ tail)%string, EmptyString)
  else (slice_to (done ++ stem ++ tail) (Z.to_nat di),
        slice_from (done ++ stem ++ tail) (Z.to_nat di)).
Proof.
  revert done. induction stem as [| a rest IH]; intros done; [reflexivity |].
  cbn [String.length skip_leading_dots all_dots].
  rewrite Nat2Z.id, slice_from_app. cbn [append slice_to String.eqb].
  destruct (Ascii.eqb a ".") eqn:E; cbn [negb andb].
  - replace (Z.of_nat (String.length done) + 1)
      with (Z.of_nat (String.length (done ++ String a EmptyString))).
    + replace (done ++ String a (rest ++ tail))%string
        with ((done ++ String a EmptyString) ++ rest ++ tail)%string
        by (rewrite string_app_assoc; reflexivity).
      apply IH.
    + clear. induction done as [| x done IH]; cbn [String.length append];
        [reflexivity | rewrite Nat2Z.inj_succ, IH; lia].
  - reflexivity.
Qed.

(** X19: what [user_output_basename] answers on a path
    [dir/stem.ext] whose [stem] and [ext] have no ['/'] and whose [ext]
    has no dot: the directory and the extension are dropped and [_out]
    is appended, as in [data/run1.root] to [run1_out]; but when the
    stem is empty or made of dots only (a hidden file such as
    [.config]) nothing counts as an extension and the whole file name
    is kept. *)
Theorem user_output_basename_of_path (dir stem ext : string) :
  last_index "/" stem = None ->
  last_index "/" ext = None ->
  last_index "." ext = None ->
  user_output_basename (dir ++ "/" ++ stem ++ "." ++ ext) =
  if all_dots stem then (stem ++ "." ++ ext ++ "_out")%string
  else (stem ++ "_out")%string.
Proof.
  intros Hs He Hd.
  assert (Hse : last_index "/" (stem ++ String "." ext) = None).
  { apply last_index_app_none; [exact Hs |]. cbn. rewrite He. reflexivity. }
  unfold user_output_basename.
  change (dir ++ "/" ++ stem ++ "." ++ ext)%string
    with (dir ++ String "/" (stem ++ String "." ext))%string.
  rewrite (basename_after_sep _ _ Hse).
  unfold splitext. rewrite !rfind_last_index, Hse.
  rewrite (last_index_app_found _ stem ext Hd).
  replace (Z.of_nat (String.length stem) >? -1) with true
    by (symmetry; rewrite Z.gtb_ltb; apply Z.ltb_lt; lia).
  replace (Z.to_nat (Z.of_nat (String.length stem) - (-1 + 1)))
    with (String.length stem) by lia.
  pose proof (skip_leading_dots_stem EmptyString stem (String "." ext)
                (Z.of_nat (String.length stem))) as Hskip.
  cbn [append String.length] in Hskip.
  change (-1 + 1) with (Z.of_nat 0). rewrite Hskip.
  destruct (all_dots stem).
  - rewrite string_app_assoc. reflexivity.
  - rewrite Nat2Z.id, slice_to_app. reflexivity.
Qed.

End OutputFile.

(* ===================================================================== *)
(** ** Opening the files *)
(* ===================================================================== *)

Section Files.

Import RootFiles.

Variables TFile TTree : Type.
Variable ROOT_TFile : string -> mode -> option TFile.
Variable IsZombie : TFile -> bool.
Variable Get : TFile -> string -> option TTree.
Variable GetEntries : TTree -> Z.

Implicit Types (self : RootFiles.attributes TFile TTree).


Lemma unusable_false (file : option TFile) :
  unusable IsZombie file = false <->
  exists f, file = Some f /\ IsZombie f = false.
Proof.
  unfold unusable. destruct file as [f |].
  - destruct (IsZombie f) eqn:Z; cbn; split.
    + discriminate.
    + intros (g & [= <-] & H'). congruence.
    + eauto.
    + reflexivity.
  - split; [discriminate | intros (g & H & _); discriminate].
Qed.

(** X20: [open_files] answers [OKFunc] or [ErrFunc], and [OKFunc]
    exactly when the input file can be used (it is neither [None] nor a
    zombie), the tree is found in it, the name of the output file is
    not the name of the input file and the output file can be created.
    When the input file cannot be used nothing else is tried: one error
    line is printed, [nentries] is as it was and no output file is
    set.  [user_before_loop] of the base class returns what
    [open_files] returns. *)
Theorem open_files_succeeds_iff self :
  (fst (open_files ROOT_TFile IsZombie Get GetEntries self) = stt.OKFunc
   <-> exists f t o,
         usable ROOT_TFile IsZombie (input_file_name self) read f
         /\ Get f (input_tree_name self) = Some t
         /\ output_file_name self <> input_file_name self
         /\ usable ROOT_TFile IsZombie (output_file_name self) recreate o)
  /\ (fst (open_files ROOT_TFile IsZombie Get GetEntries self) = stt.OKFunc
      \/ fst (open_files ROOT_TFile IsZombie Get GetEntries self) = stt.ErrFunc)
  /\ (unusable IsZombie (ROOT_TFile (input_file_name self) read) = true ->
      open_files ROOT_TFile IsZombie Get GetEntries self =
      (stt.ErrFunc,
       set_input_file None
         (print (error_opening (input_file_name self)) self)))
  /\ user_before_loop ROOT_TFile IsZombie Get GetEntries self
     = open_files ROOT_TFile IsZombie Get GetEntries self.
Proof.
  assert (Hcases :
    (fst (open_files ROOT_TFile IsZombie Get GetEntries self) = stt.OKFunc
     <-> exists f t o,
           usable ROOT_TFile IsZombie (input_file_name self) read f
           /\ Get f (input_tree_name self) = Some t
           /\ output_file_name self <> input_file_name self
           /\ usable ROOT_TFile IsZombie (output_file_name self) recreate o)
    /\ (fst (open_files ROOT_TFile IsZombie Get GetEntries self) = stt.OKFunc
        \/ fst (open_files ROOT_TFile IsZombie Get GetEntries self) = stt.ErrFunc)).
  { unfold RootFiles.open_files, _open_root, RootFiles.usable.
    destruct (unusable IsZombie (ROOT_TFile (input_file_name self) read))
      eqn:Uin.
    { cbn. split; [| auto]. split; [discriminate |].
      intros (f & t & o & [Hf Hz] & _).
      assert (X : unusable IsZombie (ROOT_TFile (input_file_name self) read)
                  = false)
        by (apply unusable_false; eauto).
      congruence. }
    apply unusable_false in Uin. destruct Uin as (f & Ef & Zf).
    rewrite Ef. cbn.
    destruct (Get f (input_tree_name self)) as [t |] eqn:Et.
    2:{ cbn. split; [| auto]. split; [discriminate |].
        intros (f' & t & o & [Hf _] & Ht & _). congruence. }
    cbn. unfold _create_root.
    destruct ((nentries self <? 0) || (GetEntries t <? nentries self)); cbn.
    all: destruct (String.eqb (output_file_name self) (input_file_name self))
           eqn:Esame; cbn.
    all: try (split; [| auto]; split; [discriminate |];
              intros (_ & _ & _ & _ & _ & Hne & _);
              apply String.eqb_eq in Esame; contradiction).
    all: apply String.eqb_neq in Esame.
    all: destruct (unusable IsZombie
                     (ROOT_TFile (output_file_name self) recreate)) eqn:Uout.
    all: try (cbn; split; [| auto]; split; [discriminate |];
              intros (_ & _ & o & _ & _ & _ & [Ho Hz]);
              assert (X : unusable IsZombie
                            (ROOT_TFile (output_file_name self) recreate)
                          = false)
                by (apply unusable_false; eauto);
              congruence).
    all: apply unusable_false in Uout; destruct Uout as (o & Eo & Zo).
    all: rewrite Eo; cbn; split; [| auto]; split; [| reflexivity].
    all: intros _; exists f, t, o; unfold RootFiles.usable; auto. }
  destruct Hcases as [Hiff Hcase].
  split; [exact Hiff |]. split; [exact Hcase |]. split.
  - intros U. unfold RootFiles.open_files, _open_root. rewrite U.
    reflexivity.
  - unfold RootFiles.user_before_loop.
    destruct (open_files ROOT_TFile IsZombie Get GetEntries self) as [r self'] eqn:E. cbn in Hcase.
    destruct Hcase as [-> | ->]; reflexivity.
Qed.

(** X21: the number of entries the loop will run over.  When the input
    file can be used and the tree is found, [open_files] leaves in
    [nentries] the number of entries of the tree if [nentries] was
    negative (the default -1: all entries) or larger than it, and the
    configured number otherwise; it is never more than the tree holds.
    This is so whether or not the output file can be created
    afterwards. *)
Theorem open_files_bounds_nentries self f t :
  usable ROOT_TFile IsZombie (input_file_name self) read f ->
  Get f (input_tree_name self) = Some t ->
  nentries (snd (open_files ROOT_TFile IsZombie Get GetEntries self))
  = (if (nentries self <? 0) || (GetEntries t <? nentries self)
     then GetEntries t else nentries self)
  /\ nentries (snd (open_files ROOT_TFile IsZombie Get GetEntries self)) <= GetEntries t
  /\ (0 <= nentries self ->
      nentries (snd (open_files ROOT_TFile IsZombie Get GetEntries self))
      = Z.min (nentries self) (GetEntries t)).
Proof.
  intros [Ef Zf] Et.
  assert (H : nentries (snd (open_files ROOT_TFile IsZombie Get GetEntries self))
              = (if (nentries self <? 0) || (GetEntries t <? nentries self)
                 then GetEntries t else nentries self)).
  { unfold RootFiles.open_files, _open_root, unusable.
    rewrite Ef, Zf. cbn. rewrite Et. cbn. unfold _create_root.
    destruct ((nentries self <? 0) || (GetEntries t <? nentries self)); cbn.
    all: destruct (String.eqb _ _); cbn; [reflexivity |].
    all: destruct (ROOT_TFile _ recreate) as [o |]; cbn;
           [destruct (Bool.eqb (IsZombie o) true) |]; reflexivity. }
  rewrite H. split; [reflexivity |].
  destruct (nentries self <? 0) eqn:A; destruct (GetEntries t <? nentries self) eqn:B;
    cbn; try apply Z.ltb_lt in A; try apply Z.ltb_ge in A;
    try apply Z.ltb_lt in B; try apply Z.ltb_ge in B; split; lia.
Qed.

End Files.

(* ===================================================================== *)
(** ** The properties above on particular registries, runs and files *)
(* ===================================================================== *)

  (** A registry with one new flag, after [accumulate] and after the
      [define] of a second name. *)
Lemma registry_stays_consistent_witness :
  consistent (accumulate [("x", fresh "x")])
  /\ exists d', define [("x", fresh "x")] "y" = Ok d' /\ consistent d'.
Proof.
  assert (H : consistent [("x", fresh "x")]).
  { split; repeat constructor. intros []. }
  destruct (registry_stays_consistent [("x", fresh "x")] H)
    as (Hdef & _ & _ & _ & Hacc & _).
  split; [exact Hacc |].
  eexists. split; [reflexivity |]. apply (Hdef "y"). reflexivity.
Defined.

  (** A module with [nentries] -1 and a clock that does not advance: the
      run prints the report of no flag and nothing else. *)
Lemma no_record_no_round_witness :
  exists w',
    run_analysis stalled_clock
      (mk_hooks ok_before_loop (quit_at_2 stalled_clock) ok_after_loop)
      (mk_world [] (VANLModule.mk_attributes (-1) 100 0 0) 0 [])
    = Ok (None, w')
    /\ stdout w' = [report_header 0; blank_line]
    /\ ticks w' = O.
Proof.
  rewrite (no_record_no_round stalled_clock
             (mk_hooks ok_before_loop (quit_at_2 stalled_clock) ok_after_loop)
             (mk_world [] (VANLModule.mk_attributes (-1) 100 0 0) 0 [])
             (mk_world [] (VANLModule.mk_attributes (-1) 100 0 0) 0 [])
             eq_refl).
  - eexists. split; [vm_compute; reflexivity |]. split; reflexivity.
  - cbn. lia.
Defined.

  (** Entry 5 of ten with a line every 100 entries: nothing happens;
      entry 9, the last one: the empty line. *)
Lemma progress_silent_between_multiples_witness :
  _print_progress stalled_clock 5 ten_records = Ok (5, ten_records)
  /\ _print_progress stalled_clock 9 ten_records
     = Ok (9, mk_world [] (VANLModule.mk_attributes 10 100 0 0) 0
                [blank_line]).
Proof.
  split.
  - rewrite (progress_silent_between_multiples stalled_clock 5 ten_records);
      [reflexivity | discriminate..].
  - rewrite (progress_silent_between_multiples stalled_clock 9 ten_records);
      [reflexivity | discriminate..].
Defined.

  (** Ten records with a print frequency of 0. *)
Lemma zero_print_frequency_raises_witness :
  for_entries steady_clock
    (mk_hooks ok_before_loop (quit_at_2 steady_clock) ok_after_loop)
    [0; 1; 2]
    (mk_world [] (VANLModule.mk_attributes 10 0 0 0) 0 [])
  = Raise ZeroDivisionError.
Proof.
  apply (zero_print_frequency_raises steady_clock). reflexivity.
Defined.

  (** The progress of entry 0 of ten records with a steady clock. *)
Lemma print_progress_keeps_witness :
  exists w',
    _print_progress steady_clock 0 ten_records = Ok (0, w')
    /\ evs w' = evs ten_records
    /\ VANLModule.nentries (self w') = 10
    /\ stdout w' = [progress_line 0 10 0%float 0%float].
Proof.
  eexists. split; [vm_compute; reflexivity |].
  destruct (print_progress_keeps steady_clock 0 ten_records 0 _ eq_refl)
    as (_ & He & Hn & _).
  split; [exact He |]. split; [exact Hn | reflexivity].
Defined.

  (** The counting body returned through [ok_event] and through
      [skip_event]. *)
Lemma skip_event_as_ok_event_witness :
  for_entries steady_clock
    (mk_hooks ok_before_loop (fun _ => count_body ;; ok_event) ok_after_loop)
    [0; 1; 2] ten_records
  = for_entries steady_clock
      (mk_hooks ok_before_loop (fun _ => count_body ;; skip_event)
         ok_after_loop)
      [0; 1; 2] ten_records.
Proof.
  apply (skip_event_as_ok_event steady_clock _ _ (fun _ => count_body));
    intros i s; reflexivity.
Defined.

Lemma quit_at_2_goes_on (clock : nat -> Z) (i : Z) :
  (i =? 2) = false ->
  forall s r s', quit_at_2 clock i s = Ok (r, s') -> r <> stt.QuitLoop.
Proof.
  intros Hi s r s' H. unfold quit_at_2 in H. rewrite Hi in H.
  cbn in H. unfold M_bind in H.
  destruct (count_body s) as [[[] s1] | e |]; try discriminate.
  cbn in H.
  apply (f_equal (fun x => match x with
                           | Ok (st, _) => st
                           | _ => stt.QuitLoop
                           end)) in H.
  cbn in H. subst r. discriminate.
Qed.

Lemma quit_at_2_quits (clock : nat -> Z) :
  forall s r s', quit_at_2 clock 2 s = Ok (r, s') -> r = stt.QuitLoop.
Proof.
  intros s r s' H. unfold quit_at_2 in H. cbn in H. unfold M_bind in H.
  destruct (count_body s) as [[[] s1] | e |]; try discriminate.
  exact (proj1 (quit_loop_returns clock _ _ _ H)).
Qed.

  (** The entries 0 and 1 and then 2 and 3 with the routine that quits
      at entry 2. *)
Lemma entries_processed_in_order_witness :
  for_entries steady_clock
    (mk_hooks ok_before_loop (quit_at_2 steady_clock) ok_after_loop)
    [0; 1; 2; 3] ten_records
  = (for_entries steady_clock
       (mk_hooks ok_before_loop (quit_at_2 steady_clock) ok_after_loop)
       [0; 1] ;;
     for_entries steady_clock
       (mk_hooks ok_before_loop (quit_at_2 steady_clock) ok_after_loop)
       [2; 3]) ten_records.
Proof.
  apply (entries_processed_in_order steady_clock
           (mk_hooks ok_before_loop (quit_at_2 steady_clock) ok_after_loop)
           [0; 1] [2; 3]).
  intros i [<- | [<- | []]]; apply quit_at_2_goes_on; reflexivity.
Defined.

  (** The entries 3 to 9 after the entry 2 at which the routine quits. *)
Lemma entries_after_quit_left_out_witness :
  for_entries steady_clock
    (mk_hooks ok_before_loop (quit_at_2 steady_clock) ok_after_loop)
    [0; 1; 2; 3; 4; 5; 6; 7; 8; 9] ten_records
  = for_entries steady_clock
      (mk_hooks ok_before_loop (quit_at_2 steady_clock) ok_after_loop)
      [0; 1; 2] ten_records.
Proof.
  apply (entries_after_quit_left_out steady_clock
           (mk_hooks ok_before_loop (quit_at_2 steady_clock) ok_after_loop)
           [0; 1] [3; 4; 5; 6; 7; 8; 9] 2).
  apply quit_at_2_quits.
Defined.

  (** The loop over four entries with the routine that quits at
      entry 2. *)
Lemma loop_leaves_flags_cleared_witness :
  exists w',
    for_entries steady_clock
      (mk_hooks ok_before_loop (quit_at_2 steady_clock) ok_after_loop)
      [0; 1; 2; 3] ten_records
    = Ok (tt, w')
    /\ cleared (evs w')
    /\ integral (evs w') "seen" = Ok (Some 3%float).
Proof.
  eexists. split; [vm_compute; reflexivity |]. split; [| reflexivity].
  apply (loop_leaves_flags_cleared steady_clock
           (mk_hooks ok_before_loop (quit_at_2 steady_clock) ok_after_loop)
           (fun _ => count_body)
           (fun i => if i =? 2 then quit_loop steady_clock else ok_event))
    with (entries := [0; 1; 2; 3]) (w := ten_records).
  - intros i. destruct (i =? 2); auto.
  - intros i s. reflexivity.
  - discriminate.
  - vm_compute. reflexivity.
Defined.

  (** [data/run1.root] and the hidden file [conf/.config]. *)
Lemma user_output_basename_of_path_witness :
  OutputName.user_output_basename "data/run1.root" = "run1_out"
  /\ OutputName.user_output_basename "conf/.config" = ".config_out".
Proof.
  split.
  - apply (user_output_basename_of_path "data" "run1" "root");
      reflexivity.
  - apply (user_output_basename_of_path "conf" "" "config");
      reflexivity.
Defined.

  (** A file that is on the disk and one that is missing. *)
Lemma open_files_succeeds_iff_witness :
  fst (RootFiles.open_files Disk.ROOT_TFile Disk.IsZombie Disk.Get
         Disk.GetEntries
         (RootFiles.__init__ "data/run1.root" "events" "." (-1)))
  = stt.OKFunc
  /\ fst (RootFiles.open_files Disk.ROOT_TFile Disk.IsZombie Disk.Get
            Disk.GetEntries
            (RootFiles.__init__ "missing.root" "events" "." (-1)))
     = stt.ErrFunc.
Proof.
  split.
  - destruct (open_files_succeeds_iff string Z Disk.ROOT_TFile Disk.IsZombie
                Disk.Get Disk.GetEntries
                (RootFiles.__init__ "data/run1.root" "events" "." (-1)))
      as ([_ Hok] & _).
    apply Hok. exists "data/run1.root", 250, "./run1_out.root".
    split; [split; reflexivity |]. split; [reflexivity |].
    split; [discriminate | split; reflexivity].
  - destruct (open_files_succeeds_iff string Z Disk.ROOT_TFile Disk.IsZombie
                Disk.Get Disk.GetEntries
                (RootFiles.__init__ "missing.root" "events" "." (-1)))
      as (_ & _ & Hmissing & _).
    rewrite (Hmissing eq_refl). reflexivity.
Defined.

  (** A tree of 250 entries: all of them by default, 100 when 100 are
      asked for, 250 when 1000 are. *)
Lemma open_files_bounds_nentries_witness :
  RootFiles.nentries
    (snd (RootFiles.open_files Disk.ROOT_TFile Disk.IsZombie Disk.Get
            Disk.GetEntries
            (RootFiles.__init__ "data/run1.root" "events" "." (-1))))
  = 250
  /\ RootFiles.nentries
       (snd (RootFiles.open_files Disk.ROOT_TFile Disk.IsZombie Disk.Get
               Disk.GetEntries
               (RootFiles.__init__ "data/run1.root" "events" "." 100)))
     = 100
  /\ RootFiles.nentries
       (snd (RootFiles.open_files Disk.ROOT_TFile Disk.IsZombie Disk.Get
               Disk.GetEntries
               (RootFiles.__init__ "data/run1.root" "events" "." 1000)))
     = 250.
Proof.
  assert (U : forall n,
             RootFiles.usable Disk.ROOT_TFile Disk.IsZombie
               (RootFiles.input_file_name
                  (RootFiles.__init__ (TFile := string) (TTree := Z)
                     "data/run1.root" "events" "." n))
               RootFiles.read "data/run1.root")
    by (intros n; split; reflexivity).
  split; [| split].
  - exact (proj1 (open_files_bounds_nentries string Z Disk.ROOT_TFile
                    Disk.IsZombie Disk.Get Disk.GetEntries
                    (RootFiles.__init__ "data/run1.root" "events" "." (-1))
                    "data/run1.root" 250 (U (-1)) eq_refl)).
  - exact (proj1 (open_files_bounds_nentries string Z Disk.ROOT_TFile
                    Disk.IsZombie Disk.Get Disk.GetEntries
                    (RootFiles.__init__ "data/run1.root" "events" "." 100)
                    "data/run1.root" 250 (U 100) eq_refl)).
  - exact (proj1 (open_files_bounds_nentries string Z Disk.ROOT_TFile
                    Disk.IsZombie Disk.Get Disk.GetEntries
                    (RootFiles.__init__ "data/run1.root" "events" "." 1000)
                    "data/run1.root" 250 (U 1000) eq_refl)).
Defined.

(* ===================================================================== *)
(** ** Arrays on the command line *)
(* ===================================================================== *)

Section Arrays.

Import ArrayAction.






End Arrays.



(* ===================================================================== *)
(** ** The statuses *)
(* ===================================================================== *)

(** X22: the statuses are told apart.  [enum.auto] numbers the five
    members 1 to 5, so [==] is true of two statuses exactly when they
    are the same member: a status of the other family is never taken
    for [OKFunc] by [run_analysis] or for [QuitLoop] by its loop. *)
Theorem status_equality (a b : stt.t) :
  (stt.eqb a b = true <-> a = b)
  /\ 1 <= stt.value a <= 5.
Proof.
  split; [| destruct a; cbn; lia].
  split; [| intros ->; destruct b; reflexivity].
  destruct a, b; cbn; intros H; try reflexivity; discriminate H.
Qed.
